(** * claude_snip_helper: clipboard-to-file helper, verification model

    A shallow embedding of [claude_snip_helper.py].  The script has four
    module-level globals ([last_snip_ts], [last_snip_seq],
    [last_snip_bytes], [lock_socket]) and two concurrent activities: the
    clipboard watcher [_clip_monitor] (a daemon thread) and the mouse hook
    [_click_handler] (called on the hook's thread).

    Modelling choices, all of them written out where they are used:
    - calls into win32gui / win32process / psutil / PIL / pyperclip are
      collaborators: each environment record holds the answer the
      collaborator gives, and a call that may raise answers with a
      [result];
    - [time.time()] is a Python float holding seconds: a binary64 value,
      modelled by Rocq's primitive [float], whose subtraction,
      multiplication and comparison are the IEEE 754 ones line 154 uses;
      the one fact about these primitives that a proof relies on is
      the Standard Library's specification of the comparison
      ([FloatAxioms.leb_spec], [FloatAxioms.Prim2SF_valid]);
    - a thread is a tree of atomic actions ([prog]): loads and stores of
      the three snapshot globals and collaborator calls.  Run alone it is
      a state-passing function ([run_seq]); run against another thread it
      is interleaved action by action under a schedule ([interleave]),
      which is what CPython does between byte codes. *)

From Stdlib Require Import ZArith QArith List String Ascii Bool Lia.
From Stdlib Require Floats.SpecFloat Floats.FloatOps Floats.FloatAxioms.
From Stdlib Require Import Floats.PrimFloat.
Import ListNotations.

Set Implicit Arguments.

Local Open Scope Z_scope.
Local Open Scope string_scope.
Local Open Scope list_scope.

(** ** Python values shared by all parts *)

Definition bytes := list Byte.byte.

(** Python floats. *)
Module Binary64.

Definition float : Set := PrimFloat.float.

(** A Python int as a float; every step is exact below 2^53. *)
Fixpoint of_pos (p : positive) : float :=
  match p with
  | xH => PrimFloat.one
  | xO q => PrimFloat.mul PrimFloat.two (of_pos q)
  | xI q => PrimFloat.add (PrimFloat.mul PrimFloat.two (of_pos q))
                          PrimFloat.one
  end.

Definition of_Z (z : Z) : float :=
  match z with
  | Z0 => PrimFloat.zero
  | Zpos p => of_pos p
  | Zneg p => PrimFloat.opp (of_pos p)
  end.

Definition signed (s : bool) (m : positive) : Z :=
  if s then Z.neg m else Z.pos m.

(** The rational a finite float stands for, mantissa times two to the
    exponent; none for the infinities and NaN. *)
Definition exact (f : float) : option Q :=
  match FloatOps.Prim2SF f with
  | SpecFloat.S754_zero _ => Some 0%Q
  | SpecFloat.S754_finite s m e =>
      Some match e with
           | Z0 => signed s m # 1
           | Zpos k => signed s (m * 2 ^ k) # 1
           | Zneg k => signed s m # (2 ^ k)
           end
  | _ => None
  end.


End Binary64.

(** Exceptions the collaborators raise.  Every constructor is a subclass
    of Python's [Exception]; the first four are the subclasses of
    [psutil.Error]. *)
Inductive exn : Type :=
| NoSuchProcess
| AccessDenied
| ZombieProcess
| TimeoutExpired
| pywintypes_error (winerror : Z)
| OSError (errno : Z)
| UnidentifiedImageError
| PyperclipException
| ImportError.

Definition is_psutil_Error (e : exn) : bool :=
  match e with
  | NoSuchProcess | AccessDenied | ZombieProcess | TimeoutExpired => true
  | _ => false
  end.

(** Outcome of a Python call: a value, or an exception on its way up. *)
Inductive result (A : Type) : Type :=
| Ok (a : A)
| Raise (e : exn).
Arguments Ok {A} a.
Arguments Raise {A} e.

(** ** The snapshot globals *)

Record store : Type := mkStore {
  last_snip_ts    : Binary64.float;
  last_snip_seq   : Z;
  last_snip_bytes : bytes
}.

(** Module initialisation, lines 35-37. *)
Definition initial_store : store :=
  {| last_snip_ts := PrimFloat.zero; last_snip_seq := 0;
     last_snip_bytes := [] |}.

(** ** Things a thread does that are visible outside it *)

Inductive event : Type :=
| EvSeq (seq_now : Z)                 (* _seq() and its answer *)
| EvAssignSeqPrev (v : Z)             (* seq_prev = seq_now *)
| EvDibAvailable (b : bool)           (* _dib_available() and its answer *)
| EvReadDib (r : option bytes)        (* _read_dib() and its answer *)
| EvSleep (ms : Z)                    (* time.sleep *)
| EvImageOpen (dib : bytes)           (* Image.open(io.BytesIO(dib)) *)
| EvImageSave (fname : string)        (* img.save(fname, "PNG") *)
| EvCopy (text : string)              (* pyperclip.copy(text) *)
| EvPrint (text : string).            (* print(text) *)

(** ** Threads as trees of atomic actions *)

Inductive prog (A : Type) : Type :=
| Ret (a : A)
| LoadTs (k : Binary64.float -> prog A)
| LoadSeq (k : Z -> prog A)
| LoadBytes (k : bytes -> prog A)
| StoreTs (v : Binary64.float) (k : prog A)
| StoreSeq (v : Z) (k : prog A)
| StoreBytes (v : bytes) (k : prog A)
| Emit (e : event) (k : prog A).
Arguments Ret {A} a.
Arguments LoadTs {A} k.
Arguments LoadSeq {A} k.
Arguments LoadBytes {A} k.
Arguments StoreTs {A} v k.
Arguments StoreSeq {A} v k.
Arguments StoreBytes {A} v k.
Arguments Emit {A} e k.

Fixpoint bind {A B} (p : prog A) (f : A -> prog B) : prog B :=
  match p with
  | Ret a => f a
  | LoadTs k => LoadTs (fun v => bind (k v) f)
  | LoadSeq k => LoadSeq (fun v => bind (k v) f)
  | LoadBytes k => LoadBytes (fun v => bind (k v) f)
  | StoreTs v k => StoreTs v (bind k f)
  | StoreSeq v k => StoreSeq v (bind k f)
  | StoreBytes v k => StoreBytes v (bind k f)
  | Emit e k => Emit e (bind k f)
  end.

(** One memory access, as a log entry. *)
Inductive access : Type :=
| RdTs (v : Binary64.float) | RdSeq (v : Z) | RdBytes (v : bytes)
| WrTs (v : Binary64.float) | WrSeq (v : Z) | WrBytes (v : bytes).

Inductive action : Type :=
| Mem (a : access)
| Ext (e : event).

(** [step st p]: the next atomic action of [p] on store [st]; [None] when
    the thread has returned. *)
Definition step {A} (st : store) (p : prog A)
  : option (store * prog A * action) :=
  match p with
  | Ret _ => None
  | LoadTs k =>
      Some (st, k (last_snip_ts st), Mem (RdTs (last_snip_ts st)))
  | LoadSeq k =>
      Some (st, k (last_snip_seq st), Mem (RdSeq (last_snip_seq st)))
  | LoadBytes k =>
      Some (st, k (last_snip_bytes st), Mem (RdBytes (last_snip_bytes st)))
  | StoreTs v k =>
      Some (mkStore v (last_snip_seq st) (last_snip_bytes st), k,
            Mem (WrTs v))
  | StoreSeq v k =>
      Some (mkStore (last_snip_ts st) v (last_snip_bytes st), k,
            Mem (WrSeq v))
  | StoreBytes v k =>
      Some (mkStore (last_snip_ts st) (last_snip_seq st) v, k,
            Mem (WrBytes v))
  | Emit e k => Some (st, k, Ext e)
  end.

(** A thread run alone, to its return: final store, everything it did in
    order, and its value. *)
Fixpoint run_seq {A} (st : store) (p : prog A)
  : store * list action * A :=
  match p with
  | Ret a => (st, [], a)
  | LoadTs k =>
      let '(st', l, a) := run_seq st (k (last_snip_ts st)) in
      (st', Mem (RdTs (last_snip_ts st)) :: l, a)
  | LoadSeq k =>
      let '(st', l, a) := run_seq st (k (last_snip_seq st)) in
      (st', Mem (RdSeq (last_snip_seq st)) :: l, a)
  | LoadBytes k =>
      let '(st', l, a) := run_seq st (k (last_snip_bytes st)) in
      (st', Mem (RdBytes (last_snip_bytes st)) :: l, a)
  | StoreTs v k =>
      let '(st', l, a) :=
        run_seq (mkStore v (last_snip_seq st) (last_snip_bytes st)) k in
      (st', Mem (WrTs v) :: l, a)
  | StoreSeq v k =>
      let '(st', l, a) :=
        run_seq (mkStore (last_snip_ts st) v (last_snip_bytes st)) k in
      (st', Mem (WrSeq v) :: l, a)
  | StoreBytes v k =>
      let '(st', l, a) :=
        run_seq (mkStore (last_snip_ts st) (last_snip_seq st) v) k in
      (st', Mem (WrBytes v) :: l, a)
  | Emit e k =>
      let '(st', l, a) := run_seq st k in
      (st', Ext e :: l, a)
  end.

Definition final_store {A} (r : store * list action * A) : store :=
  fst (fst r).
Definition actions {A} (r : store * list action * A) : list action :=
  snd (fst r).
Definition value {A} (r : store * list action * A) : A := snd r.

(** The collaborator calls among a list of actions. *)
Fixpoint events (l : list action) : list event :=
  match l with
  | [] => []
  | Ext e :: l' => e :: events l'
  | Mem _ :: l' => events l'
  end.

(** The stores among a list of actions. *)
Fixpoint writes (l : list action) : list access :=
  match l with
  | [] => []
  | Mem (WrTs v) :: l' => WrTs v :: writes l'
  | Mem (WrSeq v) :: l' => WrSeq v :: writes l'
  | Mem (WrBytes v) :: l' => WrBytes v :: writes l'
  | _ :: l' => writes l'
  end.

(** The loads among a list of actions. *)
Fixpoint reads (l : list action) : list access :=
  match l with
  | [] => []
  | Mem (RdTs v) :: l' => RdTs v :: reads l'
  | Mem (RdSeq v) :: l' => RdSeq v :: reads l'
  | Mem (RdBytes v) :: l' => RdBytes v :: reads l'
  | _ :: l' => reads l'
  end.

(** ** Two threads on one store *)

Inductive tid : Type := Poller | Handler.

Record config (A B : Type) : Type := mkConfig {
  mem : store;
  poller : prog A;
  handler : prog B;
  log : list (tid * action)      (* oldest first *)
}.

(** One scheduling decision.  Picking a thread that has returned changes
    nothing. *)
Definition sched_step {A B} (t : tid) (c : config A B) : config A B :=
  match t with
  | Poller =>
      match step (mem c) (poller c) with
      | Some (st', p', a) =>
          mkConfig st' p' (handler c) (log c ++ [(Poller, a)])
      | None => c
      end
  | Handler =>
      match step (mem c) (handler c) with
      | Some (st', h', a) =>
          mkConfig st' (poller c) h' (log c ++ [(Handler, a)])
      | None => c
      end
  end.

Fixpoint interleave {A B} (sched : list tid) (c : config A B) : config A B :=
  match sched with
  | [] => c
  | t :: sched' => interleave sched' (sched_step t c)
  end.

Definition start {A B} (st : store) (p : prog A) (h : prog B) : config A B :=
  mkConfig st p h [].

(** What one thread did, out of a shared log. *)
Fixpoint by_thread (t : tid) (l : list (tid * action)) : list action :=
  match l with
  | [] => []
  | (t', a) :: l' =>
      match t, t' with
      | Poller, Poller | Handler, Handler => a :: by_thread t l'
      | _, _ => by_thread t l'
      end
  end.

(** ** Single-instance gate: [_acquire_lock], [_release_lock] *)

Module Gate.

(** Line 46. *)
Definition LOCK_PORT : Z := 19847.

(** A Python socket object, as far as the gate uses it. *)
Record socket : Type := mkSocket {
  closed    : bool;
  bound     : option (string * Z);
  listening : bool
}.

(** The global [lock_socket]: [None] or a socket object. *)
Record gate_state : Type := mkGate {
  lock_socket : option socket
}.

(** Line 38. *)
Definition initial_gate : gate_state := {| lock_socket := None |}.

(** The rendezvous port is held through the global exactly when the
    socket it names is bound and not closed. *)
Definition held (g : gate_state) : bool :=
  match lock_socket g with
  | Some s =>
      negb (closed s) &&
      match bound s with Some _ => true | None => false end
  | None => false
  end.

Inductive gate_event : Type :=
| SockCreate
| SockBind (host : string) (port : Z)
| SockListen (backlog : Z)
| SockClose.

(** What the operating system answers to the three socket calls of
    [_acquire_lock]. *)
Record AcqEnv : Type := mkAcqEnv {
  socket_socket : result unit;
  socket_bind   : result unit;
  socket_listen : result unit
}.

Definition is_OSError (e : exn) : bool :=
  match e with OSError _ => true | _ => false end.

Definition fresh_socket : socket :=
  {| closed := false; bound := None; listening := false |}.

Definition close (s : socket) : socket :=
  {| closed := true; bound := bound s; listening := listening s |}.

(** The [except OSError] branch, lines 53-57: close whatever the global
    names, leave the global as it is, answer [False]; any other
    exception goes up. *)
Definition on_error (e : exn) (g : gate_state) (tr : list gate_event)
  : gate_state * list gate_event * result bool :=
  if is_OSError e then
    match lock_socket g with
    | Some s => ({| lock_socket := Some (close s) |}, tr ++ [SockClose],
                 Ok false)
    | None => (g, tr, Ok false)
    end
  else (g, tr, Raise e).

(** Lines 42-57. *)
Definition _acquire_lock (env : AcqEnv) (g : gate_state)
  : gate_state * list gate_event * result bool :=
  match socket_socket env with
  | Raise e => on_error e g [SockCreate]
  | Ok _ =>
      let g1 := {| lock_socket := Some fresh_socket |} in
      match socket_bind env with
      | Raise e => on_error e g1 [SockCreate; SockBind "127.0.0.1" LOCK_PORT]
      | Ok _ =>
          let s2 := {| closed := false;
                       bound := Some ("127.0.0.1", LOCK_PORT);
                       listening := false |} in
          let g2 := {| lock_socket := Some s2 |} in
          match socket_listen env with
          | Raise e =>
              on_error e g2
                [SockCreate; SockBind "127.0.0.1" LOCK_PORT; SockListen 1]
          | Ok _ =>
              ({| lock_socket :=
                    Some {| closed := false;
                            bound := Some ("127.0.0.1", LOCK_PORT);
                            listening := true |} |},
               [SockCreate; SockBind "127.0.0.1" LOCK_PORT; SockListen 1],
               Ok true)
          end
      end
  end.

(** Lines 60-64.  A socket object is always truthy, closed or not. *)
Definition _release_lock (g : gate_state) : gate_state * list gate_event :=
  match lock_socket g with
  | Some _ => ({| lock_socket := None |}, [SockClose])
  | None => (g, [])
  end.

End Gate.

(** ** Window-ownership classifier *)

Module Classifier.

(** Line 32. *)
Definition VS_CODE_EXE : list string :=
  ["code.exe"; "code - insiders.exe"; "vscode.exe"].

(** [str.lower] on the ASCII letters; other characters are kept: a name
    holding a character outside ASCII equals no member of [VS_CODE_EXE],
    lowered or not. *)
Definition lower_ascii (c : ascii) : ascii :=
  let n := nat_of_ascii c in
  if ((65 <=? n) && (n <=? 90))%nat then ascii_of_nat (n + 32) else c.

Fixpoint lower (s : string) : string :=
  match s with
  | EmptyString => EmptyString
  | String c s' => String (lower_ascii c) (lower s')
  end.

Definition in_set (s : string) (l : list string) : bool :=
  existsb (String.eqb s) l.

(** Answers of the window system and of psutil at one instant.  A
    window handle is an integer, 0 when there is no window. *)
Record WinEnv : Type := mkWinEnv {
  GetForegroundWindow      : Z;
  WindowFromPoint          : Z * Z -> Z;
  GetWindowThreadProcessId : Z -> result (Z * Z);
  Process_name             : Z -> result string
}.

(** Lines 96-100: only [psutil.Error] is caught. *)
Definition _pid_is_vscode (w : WinEnv) (pid : Z) : result bool :=
  match Process_name w pid with
  | Ok name => Ok (in_set (lower name) VS_CODE_EXE)
  | Raise e => if is_psutil_Error e then Ok false else Raise e
  end.

(** Lines 103-108: no handler around the window-system calls. *)
Definition _foreground_is_vscode (w : WinEnv) : result bool :=
  let hwnd := GetForegroundWindow w in
  if (hwnd =? 0)%Z then Ok false
  else
    match GetWindowThreadProcessId w hwnd with
    | Ok (_, pid) => _pid_is_vscode w pid
    | Raise e => Raise e
    end.

(** Lines 111-116. *)
Definition _window_at_point_is_vscode (w : WinEnv) (x y : Z) : result bool :=
  let hwnd := WindowFromPoint w (x, y) in
  if (hwnd =? 0)%Z then Ok false
  else
    match GetWindowThreadProcessId w hwnd with
    | Ok (_, pid) => _pid_is_vscode w pid
    | Raise e => Raise e
    end.

End Classifier.

(** ** Monadic notation for threads *)

Definition emit (e : event) : prog unit := Emit e (Ret tt).
Definition load_ts : prog Binary64.float := LoadTs (fun v => Ret v).
Definition load_seq : prog Z := LoadSeq (fun v => Ret v).
Definition load_bytes : prog bytes := LoadBytes (fun v => Ret v).
Definition store_ts (v : Binary64.float) : prog unit := StoreTs v (Ret tt).
Definition store_seq (v : Z) : prog unit := StoreSeq v (Ret tt).
Definition store_bytes (v : bytes) : prog unit := StoreBytes v (Ret tt).

Declare Scope prog_scope.
Delimit Scope prog_scope with prog.
Notation "x <- p ;; q" := (bind p (fun x => q))
  (at level 61, p at next level, right associativity) : prog_scope.
Notation "p ;; q" := (bind p (fun _ => q))
  (at level 61, right associativity) : prog_scope.
Local Open Scope prog_scope.

(** ** Clipboard helpers: [_seq], [_dib_available], [_read_dib],
    [_save_image] *)

Module Clipboard.

(** Answers of the clipboard at one instant; the format asked for is
    always [CF_DIB]. *)
Record ClipEnv : Type := mkClipEnv {
  GetClipboardSequenceNumber : Z;
  IsClipboardFormatAvailable : bool;
  OpenClipboard              : result unit;
  GetClipboardData           : result bytes;
  CloseClipboard             : result unit
}.

(** Lines 69-70. *)
Definition _seq (c : ClipEnv) : Z := GetClipboardSequenceNumber c.

(** Lines 73-74. *)
Definition _dib_available (c : ClipEnv) : bool :=
  IsClipboardFormatAvailable c.

(** Lines 77-84: [except Exception] catches every [exn]. *)
Definition _read_dib (c : ClipEnv) : option bytes :=
  match OpenClipboard c with
  | Raise _ => None
  | Ok _ =>
      match GetClipboardData c with
      | Raise _ => None
      | Ok data =>
          match CloseClipboard c with
          | Raise _ => None
          | Ok _ => Some data
          end
      end
  end.

(** Truth value of [dib] in [if dib:]: [None] and [b""] are false. *)
Definition truthy (dib : option bytes) : bool :=
  match dib with
  | Some (_ :: _) => true
  | _ => false
  end.

(** Answers of PIL, the file system and the wall clock to one
    [_save_image] call. *)
Record SinkEnv : Type := mkSinkEnv {
  Path_home  : string;
  os_sep     : string;            (* separator [str] joins a path with *)
  Image_open : bytes -> result unit;
  strftime   : string;            (* datetime.now() as %Y%m%d_%H%M%S *)
  Image_save : bytes -> string -> result unit
}.

(** A [pathlib.Path], as its components; [/] appends one. *)
Definition path : Type := list string.

Definition path_str (sep : string) (p : path) : string :=
  String.concat sep p.

(** Line 30. *)
Definition SAVE_DIR (home : string) : path :=
  [home; "Pictures"; "Screenshots"].

(** Lines 87-91: no handler; a decoder or file-system exception goes
    up. *)
Definition _save_image (s : SinkEnv) (dib : bytes) : prog (result path) :=
  emit (EvImageOpen dib) ;;
  match Image_open s dib with
  | Raise e => Ret (Raise e)
  | Ok _ =>
      let fname :=
        SAVE_DIR (Path_home s)
          ++ [("screenshot_" ++ strftime s ++ ".png")%string] in
      emit (EvImageSave (path_str (os_sep s) fname)) ;;
      match Image_save s dib (path_str (os_sep s) fname) with
      | Raise e => Ret (Raise e)
      | Ok _ => Ret (Ok fname)
      end
  end.

End Clipboard.

(** ** Clipboard watcher: [_clip_monitor] *)

Module Poller.
Import Clipboard.

Record PollEnv : Type := mkPollEnv {
  clip      : ClipEnv;
  time_time : Binary64.float
}.

(** One pass through the body of [while True], lines 126-135; the value
    is [seq_prev] as the pass leaves it. *)
Definition iteration (e : PollEnv) (seq_prev : Z) : prog Z :=
  let seq_now := _seq (clip e) in
  emit (EvSeq seq_now) ;;
  if negb (seq_now =? seq_prev)%Z then
    emit (EvAssignSeqPrev seq_now) ;;
    emit (EvDibAvailable (_dib_available (clip e))) ;;
    (if _dib_available (clip e) then
       let dib := _read_dib (clip e) in
       emit (EvReadDib dib) ;;
       match dib with
       | Some (c :: d) =>
           store_bytes (c :: d) ;;
           store_seq seq_now ;;
           store_ts (time_time e)
       | _ => Ret tt
       end
     else Ret tt) ;;
    emit (EvSleep 50) ;;
    Ret seq_now
  else
    emit (EvSleep 50) ;;
    Ret seq_prev.

(** The loop, for as many passes as there are environments. *)
Fixpoint loop (envs : list PollEnv) (seq_prev : Z) : prog Z :=
  match envs with
  | [] => Ret seq_prev
  | e :: envs' => seq_prev' <- iteration e seq_prev ;; loop envs' seq_prev'
  end.

(** Lines 121-135: [e0] answers the call before the loop. *)
Definition _clip_monitor (e0 : PollEnv) (envs : list PollEnv) : prog Z :=
  emit (EvSeq (_seq (clip e0))) ;;
  loop envs (_seq (clip e0)).

End Poller.

(** ** Mouse hook: [_click_handler] *)

Module Coordinator.
Import Clipboard Classifier.

(** Line 29. *)
Definition CLICK_SUPPRESS_MS : Z := 200.

(** Events of the [mouse] package.  The handler never reads [time] or
    [delta]; they are carried as rationals. *)
Inductive mouse_event : Type :=
| ButtonEvent (event_type : string) (button : string) (time : Q)
| MoveEvent (x y : Z) (time : Q)
| WheelEvent (delta : Q) (time : Q).

Definition LEFT : string := "left".
Definition RIGHT : string := "right".
Definition DOWN : string := "down".
Definition UP : string := "up".

Record ClickEnv : Type := mkClickEnv {
  win            : WinEnv;
  get_position   : Z * Z;
  time_time      : Binary64.float;
  clip           : ClipEnv;
  sink           : SinkEnv;
  pyperclip_copy : string -> result unit
}.

(** Which statement ended the handler. *)
Inductive exit_point : Type :=
| NotButtonEvent              (* line 142 *)
| NotLeftDown                 (* line 144 *)
| OutOfScope                  (* line 151 *)
| Suppressed                  (* line 155 *)
| Stale                       (* line 159 *)
| Completed (p : path).       (* line 163 *)

(** Python's [a or b] on calls that may raise: [b] is evaluated only
    when [a] returned [False]. *)
Definition py_or (a b : result bool) : result bool :=
  match a with
  | Raise e => Raise e
  | Ok true => Ok true
  | Ok false => b
  end.

(** Line 150. *)
Definition in_scope (e : ClickEnv) : result bool :=
  let '(x, y) := get_position e in
  py_or (_foreground_is_vscode (win e))
        (_window_at_point_is_vscode (win e) x y).

(** Line 154. *)
Definition suppressed (now ts : Binary64.float) : bool :=
  PrimFloat.leb (PrimFloat.mul (PrimFloat.sub now ts) (Binary64.of_Z 1000))
                (Binary64.of_Z CLICK_SUPPRESS_MS).

(** Lines 161-163. *)
Definition save_and_report (e : ClickEnv) (dib : bytes)
  : prog (result exit_point) :=
  r <- _save_image (sink e) dib ;;
  match r with
  | Raise ex => Ret (Raise ex)
  | Ok p =>
      let text := path_str (os_sep (sink e)) p in
      emit (EvCopy text) ;;
      match pyperclip_copy e text with
      | Raise ex => Ret (Raise ex)
      | Ok _ =>
          emit (EvPrint ("✓ Saved → " ++ text ++ "  (path copied)")%string) ;;
          Ret (Ok (Completed p))
      end
  end.

(** Lines 153-163: what the handler does once the scope check has let
    the click through. *)
Definition gated (e : ClickEnv) : prog (result exit_point) :=
  ts <- load_ts ;;
  if suppressed (time_time e) ts then Ret (Ok Suppressed)
  else
    emit (EvSeq (_seq (clip e))) ;;
    s <- load_seq ;;
    if negb (_seq (clip e) =? s)%Z then Ret (Ok Stale)
    else
      emit (EvDibAvailable (_dib_available (clip e))) ;;
      if negb (_dib_available (clip e)) then Ret (Ok Stale)
      else
        dib <- load_bytes ;;
        save_and_report e dib.

(** Lines 140-163. *)
Definition _click_handler (e : ClickEnv) (ev : mouse_event)
  : prog (result exit_point) :=
  match ev with
  | ButtonEvent event_type button _ =>
      if negb (event_type =? DOWN)%string || negb (button =? LEFT)%string
      then Ret (Ok NotLeftDown)
      else
        match in_scope e with
        | Raise ex => Ret (Raise ex)
        | Ok false => Ret (Ok OutOfScope)
        | Ok true => gated e
        end
  | _ => Ret (Ok NotButtonEvent)
  end.

(** A click is accepted when the handler goes on to call
    [_save_image]. *)
Definition save_calls (l : list action) : list bytes :=
  flat_map (fun a => match a with
                     | Ext (EvImageOpen dib) => [dib]
                     | _ => []
                     end) l.

End Coordinator.

(** ** Start-up and shutdown: module body and [main] *)

Module Startup.
Import Gate.

Inductive sys_event : Type :=
| SysMkdir (p : Clipboard.path)
                               (* SAVE_DIR.mkdir(parents=True, exist_ok=True) *)
| SysPrint (text : string)
| SysGate (g : gate_event)
| SysThreadStart               (* Thread(target=_clip_monitor, daemon=True).start() *)
| SysHook                      (* mouse.hook(_click_handler) *)
| SysUnhook                    (* mouse.unhook(_click_handler) *)
| SysSleep (seconds : Z)
| SysTraceback (e : exn).      (* an exception nobody caught *)

(** What the process finds when it starts.  [interrupt_after] is the
    number of [time.sleep(1)] calls that return before Ctrl-C. *)
Record StartEnv : Type := mkStartEnv {
  imports         : result unit;   (* lines 19-26 *)
  sys_platform    : string;
  Path_home       : string;
  Path_mkdir      : result unit;
  acq             : AcqEnv;
  interrupt_after : nat
}.

Definition MSG_WINDOWS_ONLY : string := "Windows only.".
Definition MSG_OTHER_INSTANCE : string :=
  "🚫 Another instance is already running. Shutting down.".
Definition MSG_RUNNING : string :=
  "🟢 VS-Code snip helper running – Ctrl-C to quit".
Definition MSG_STOPPING : string :=
  String "010"%char "🛑 Stopping…".

(** Lines 167-188.  The value is the process exit status: the argument
    of [sys.exit], 1 for an exception nobody caught, 0 when [main]
    returns. *)
Definition main (e : StartEnv) (g : gate_state)
  : gate_state * list sys_event * Z :=
  if negb (sys_platform e =? "win32")%string then
    (g, [SysPrint MSG_WINDOWS_ONLY], 1)
  else
    let '(g1, tr, r) := _acquire_lock (acq e) g in
    match r with
    | Raise ex => (g1, map SysGate tr ++ [SysTraceback ex], 1)
    | Ok false => (g1, map SysGate tr ++ [SysPrint MSG_OTHER_INSTANCE], 1)
    | Ok true =>
        let '(g2, tr2) := _release_lock g1 in
        (g2,
         map SysGate tr
           ++ [SysPrint MSG_RUNNING; SysThreadStart; SysHook]
           ++ repeat (SysSleep 1) (interrupt_after e)
           ++ [SysPrint MSG_STOPPING; SysUnhook]
           ++ map SysGate tr2,
         0)
    end.

(** The script as the interpreter runs it: the imports, then line 31
    creates the directory while the module is still being loaded, then
    line 192 calls [main]. *)
Definition script (e : StartEnv) : gate_state * list sys_event * Z :=
  match imports e with
  | Raise ex => (initial_gate, [SysTraceback ex], 1)
  | Ok _ =>
      let mk := SysMkdir (Clipboard.SAVE_DIR (Path_home e)) in
      match Path_mkdir e with
      | Raise ex => (initial_gate, [mk; SysTraceback ex], 1)
      | Ok _ =>
          let '(g, tr, status) := main e initial_gate in
          (g, mk :: tr, status)
      end
  end.

Definition exit_status (r : gate_state * list sys_event * Z) : Z := snd r.
Definition trace (r : gate_state * list sys_event * Z) : list sys_event :=
  snd (fst r).

Definition is_print (ev : sys_event) : bool :=
  match ev with SysPrint _ => true | _ => false end.
Definition is_mkdir (ev : sys_event) : bool :=
  match ev with SysMkdir _ => true | _ => false end.
Definition is_gate (ev : sys_event) : bool :=
  match ev with SysGate _ => true | _ => false end.

End Startup.

(** ** The watcher's publication against the hook's reads *)

Module Publication.

(** The triple a thread has read when its loads are exactly one load
    of each global in the order of [_click_handler]: [last_snip_ts]
    (line 154), [last_snip_seq] (line 158), [last_snip_bytes]
    (line 161). *)
Definition observed_triple (l : list access) : option store :=
  match l with
  | [RdTs t; RdSeq s; RdBytes b] => Some (mkStore t s b)
  | _ => None
  end.

(** Loads of the hook's thread in a finished interleaving. *)
Definition handler_reads {A B} (c : config A B) : list access :=
  reads (by_thread Handler (log c)).

(** The store after the first [i] of the three assignments of lines
    132-134 (payload, then token, then timestamp) have been done. *)
Definition mem_at (old new : store) (i : nat) : store :=
  mkStore (if (3 <=? i)%nat then last_snip_ts new else last_snip_ts old)
          (if (2 <=? i)%nat then last_snip_seq new else last_snip_seq old)
          (if (1 <=? i)%nat then last_snip_bytes new
           else last_snip_bytes old).

(** [wphase b s t i p]: [p] still has to do the assignments after the
    [i]-th, in order, and nothing else to the store. *)
Inductive wphase {A} (b : bytes) (s : Z) (t : Binary64.float)
  : nat -> prog A -> Prop :=
| wp_done a : wphase b s t 3 (Ret a)
| wp_emit i e k : wphase b s t i k -> wphase b s t i (Emit e k)
| wp_ts k : wphase b s t 3 k -> wphase b s t 2 (StoreTs t k)
| wp_seq k : wphase b s t 2 k -> wphase b s t 1 (StoreSeq s k)
| wp_bytes k : wphase b s t 1 k -> wphase b s t 0 (StoreBytes b k).

(** [rphase n p]: [p] has done [n] of its loads; what is left are the
    loads after the [n]-th, in order, or an early return. *)
Inductive rphase {B} : nat -> prog B -> Prop :=
| rp_ret n b : rphase n (Ret b)
| rp_emit n e k : rphase n k -> rphase n (Emit e k)
| rp_ts k : (forall v, rphase 1 (k v)) -> rphase 0 (LoadTs k)
| rp_seq k : (forall v, rphase 2 (k v)) -> rphase 1 (LoadSeq k)
| rp_bytes k : (forall v, rphase 3 (k v)) -> rphase 2 (LoadBytes k).

(** The loads done so far, each taken from the store as it was after
    some number of assignments, these numbers never decreasing. *)
Definition reads_ok (old new : store) (n i : nat) (l : list access) : Prop :=
  match n with
  | 0%nat => l = []
  | 1%nat =>
      exists j1, (j1 <= i)%nat /\
        l = [RdTs (last_snip_ts (mem_at old new j1))]
  | 2%nat =>
      exists j1 j2, (j1 <= j2 <= i)%nat /\
        l = [RdTs (last_snip_ts (mem_at old new j1));
             RdSeq (last_snip_seq (mem_at old new j2))]
  | 3%nat =>
      exists j1 j2 j3, (j1 <= j2 <= j3)%nat /\ (j3 <= i)%nat /\
        l = [RdTs (last_snip_ts (mem_at old new j1));
             RdSeq (last_snip_seq (mem_at old new j2));
             RdBytes (last_snip_bytes (mem_at old new j3))]
  | _ => False
  end.

(** What every reachable configuration satisfies. *)
Definition inv {A B} (old new : store) (c : config A B) : Prop :=
  exists i n,
    (i <= 3)%nat /\
    wphase (last_snip_bytes new) (last_snip_seq new) (last_snip_ts new)
           i (poller c) /\
    mem c = mem_at old new i /\
    rphase n (handler c) /\
    reads_ok old new n i (handler_reads c).

(** The four triples a reader can end up with. *)
Definition staged (old new obs : store) : Prop :=
  obs = old \/
  obs = mkStore (last_snip_ts old) (last_snip_seq old)
                (last_snip_bytes new) \/
  obs = mkStore (last_snip_ts old) (last_snip_seq new)
                (last_snip_bytes new) \/
  obs = new.

End Publication.

(** ** Concrete situations used to run the definitions *)

Module Scenario.
Import Gate Classifier Clipboard Poller Coordinator Startup.

(** Socket calls all succeed. *)
Definition port_free : AcqEnv :=
  {| socket_socket := Ok tt; socket_bind := Ok tt; socket_listen := Ok tt |}.

(** Another instance holds the port: [bind] raises WSAEADDRINUSE. *)
Definition port_taken : AcqEnv :=
  {| socket_socket := Ok tt;
     socket_bind := Raise (OSError 10048);
     socket_listen := Ok tt |}.

(** Linux: there is no pywin32, line 23 raises. *)
Definition on_linux : StartEnv :=
  {| imports := Raise ImportError;
     sys_platform := "linux"; Startup.Path_home := "/home/user";
     Path_mkdir := Ok tt; acq := port_free; interrupt_after := 0 |}.

Definition on_windows_second_instance : StartEnv :=
  {| imports := Ok tt;
     sys_platform := "win32"; Startup.Path_home := "C:\Users\user";
     Path_mkdir := Ok tt; acq := port_taken; interrupt_after := 0 |}.

Definition on_windows : StartEnv :=
  {| imports := Ok tt;
     sys_platform := "win32"; Startup.Path_home := "C:\Users\user";
     Path_mkdir := Ok tt; acq := port_free; interrupt_after := 2 |}.

(** Two windows: 100 belongs to VS Code (pid 7), 200 to the file
    manager (pid 8); handle 300 is of a window that no longer
    exists. *)
Definition window_owner (hwnd : Z) : result (Z * Z) :=
  if (hwnd =? 100)%Z then Ok (11, 7)
  else if (hwnd =? 200)%Z then Ok (12, 8)
  else Raise (pywintypes_error 1400).

Definition process_name (pid : Z) : result string :=
  if (pid =? 7)%Z then Ok "Code.exe"
  else if (pid =? 8)%Z then Ok "explorer.exe"
  else Raise NoSuchProcess.

Definition desktop (foreground under_pointer : Z) : WinEnv :=
  {| GetForegroundWindow := foreground;
     WindowFromPoint := fun _ => under_pointer;
     GetWindowThreadProcessId := window_owner;
     Process_name := process_name |}.

Definition clipboard (seq : Z) (has_dib : bool) (data : bytes) : ClipEnv :=
  {| GetClipboardSequenceNumber := seq;
     IsClipboardFormatAvailable := has_dib;
     OpenClipboard := Ok tt;
     GetClipboardData := Ok data;
     CloseClipboard := Ok tt |}.

Definition disk : SinkEnv :=
  {| Clipboard.Path_home := "C:\Users\user"; os_sep := "\";
     Image_open := fun _ => Ok tt;
     strftime := "20240101_120000";
     Image_save := fun _ _ => Ok tt |}.

(** The decoder rejects the payload. *)
Definition disk_corrupt : SinkEnv :=
  {| Clipboard.Path_home := "C:\Users\user"; os_sep := "\";
     Image_open := fun _ => Raise UnidentifiedImageError;
     strftime := "20240101_120000";
     Image_save := fun _ _ => Ok tt |}.

Definition old_dib : bytes := [Byte.x28; Byte.x01].
Definition new_dib : bytes := [Byte.x28; Byte.x02].

(** Snapshot taken at second 1000 of clipboard state 41. *)
Definition snap : store :=
  {| last_snip_ts := 1000%float; last_snip_seq := 41;
     last_snip_bytes := old_dib |}.

Definition click (w : WinEnv) (now : Binary64.float) (c : ClipEnv)
  (s : SinkEnv)
  : ClickEnv :=
  {| win := w; get_position := (10, 10); Coordinator.time_time := now;
     clip := c; sink := s; pyperclip_copy := fun _ => Ok tt |}.

Definition left_down : mouse_event := ButtonEvent DOWN LEFT 0%Q.

(** A deliberate click in VS Code half a second after the snip. *)
Definition good_click : ClickEnv :=
  click (desktop 100 200) 1000.5%float (clipboard 41 true old_dib) disk.

(** The same click when the payload cannot be decoded. *)
Definition corrupt_click : ClickEnv :=
  click (desktop 100 200) 1000.5%float (clipboard 41 true old_dib)
        disk_corrupt.

(** The watcher sees clipboard state 42 holding a new bitmap. *)
Definition new_snip : PollEnv :=
  {| Poller.clip := clipboard 42 true new_dib;
     Poller.time_time := 1002%float |}.


(** The hook reads timestamp and token and checks the clipboard; the
    clipboard changes and the watcher gets as far as assigning the
    payload; the hook runs to its end; the watcher finishes. *)
Definition torn_schedule : list tid :=
  [Handler; Handler; Handler; Handler;
   Poller; Poller; Poller; Poller; Poller;
   Handler; Handler; Handler; Handler; Handler;
   Poller; Poller; Poller].

Definition torn_run : config Z (result exit_point) :=
  interleave torn_schedule
    (start snap (Poller.iteration new_snip 41)
       (_click_handler good_click left_down)).

(** Old timestamp and token, new payload. *)
Definition torn_triple : store :=
  {| last_snip_ts := 1000%float; last_snip_seq := 41;
     last_snip_bytes := new_dib |}.

End Scenario.

(** ** Further definitions for the properties beyond the claims *)

Module Calls.
Import Clipboard.

Definition is_ok {A} (r : result A) : bool :=
  match r with Ok _ => true | Raise _ => false end.

(** The clipboard calls [_read_dib] makes, lines 78-84, next to its
    value: a call that raises is the last one made. *)
Inductive clip_call : Type :=
| CallOpenClipboard
| CallGetClipboardData
| CallCloseClipboard.

Definition _read_dib_calls (c : ClipEnv) : list clip_call * option bytes :=
  match OpenClipboard c with
  | Raise _ => ([CallOpenClipboard], None)
  | Ok _ =>
      match GetClipboardData c with
      | Raise _ => ([CallOpenClipboard; CallGetClipboardData], None)
      | Ok data =>
          match CloseClipboard c with
          | Raise _ =>
              ([CallOpenClipboard; CallGetClipboardData; CallCloseClipboard],
               None)
          | Ok _ =>
              ([CallOpenClipboard; CallGetClipboardData; CallCloseClipboard],
               Some data)
          end
      end
  end.

Definition is_close (c : clip_call) : bool :=
  match c with CallCloseClipboard => true | _ => false end.

(** [s] is the snapshot a pass of the watcher in environment [e]
    publishes. *)
Definition published_by (e : Poller.PollEnv) (s : store) : Prop :=
  _dib_available (Poller.clip e) = true /\
  exists dib,
    _read_dib (Poller.clip e) = Some dib /\ dib <> [] /\
    s = mkStore (Poller.time_time e) (_seq (Poller.clip e)) dib.

(** The file name of line 89. *)
Definition screenshot_name (stamp : string) : string :=
  ("screenshot_" ++ stamp ++ ".png")%string.

(** Whether an event is the left button going down. *)
Definition is_left_down (ev : Coordinator.mouse_event) : bool :=
  match ev with
  | Coordinator.ButtonEvent et b _ =>
      (et =? Coordinator.DOWN)%string && (b =? Coordinator.LEFT)%string
  | _ => false
  end.

Definition is_hook (ev : Startup.sys_event) : bool :=
  match ev with Startup.SysHook => true | _ => false end.

Definition is_thread_start (ev : Startup.sys_event) : bool :=
  match ev with Startup.SysThreadStart => true | _ => false end.

Definition is_image_save (ev : event) : bool :=
  match ev with EvImageSave _ => true | _ => false end.

Definition is_print_event (ev : event) : bool :=
  match ev with EvPrint _ => true | _ => false end.

End Calls.

Module Cases.
Import Gate Classifier Clipboard Poller Coordinator Startup.

(** The clipboard opens, but the bitmap is gone when it is asked for. *)
Definition format_gone : ClipEnv :=
  {| GetClipboardSequenceNumber := 42;
     IsClipboardFormatAvailable := true;
     OpenClipboard := Ok tt;
     GetClipboardData := Raise (pywintypes_error 1168);
     CloseClipboard := Ok tt |}.

(** The clipboard is full of text: state 43, no bitmap. *)
Definition text_copied : PollEnv :=
  {| Poller.clip := Scenario.clipboard 43 false [];
     Poller.time_time := 1005%float |}.

(** A right-button press. *)
Definition right_down : mouse_event := ButtonEvent DOWN RIGHT 0%Q.

(** The file is written, then the clipboard refuses the text. *)
Definition copy_refused : ClickEnv :=
  {| win := Scenario.desktop 100 200; get_position := (10, 10);
     Coordinator.time_time := 1000.5%float;
     clip := Scenario.clipboard 41 true Scenario.old_dib;
     sink := Scenario.disk;
     pyperclip_copy := fun _ => Raise PyperclipException |}.

(** The foreground window is gone; VS Code is under the pointer. *)
Definition foreground_gone : ClickEnv :=
  Scenario.click (Scenario.desktop 300 100) 1000.5%float
    (Scenario.clipboard 41 true Scenario.old_dib) Scenario.disk.

(** A click in VS Code one second after start-up, nothing snipped yet,
    the clipboard at state 7. *)
Definition early_click : ClickEnv :=
  Scenario.click (Scenario.desktop 100 200) 1%float
    (Scenario.clipboard 7 true Scenario.old_dib) Scenario.disk.



(** A click in VS Code half a second after the second snip. *)
Definition late_click : ClickEnv :=
  Scenario.click (Scenario.desktop 100 200) 1002.5%float
    (Scenario.clipboard 42 true Scenario.new_dib) Scenario.disk.

End Cases.

(** * Properties *)

(** ** Single-instance gate *)

Lemma release_lock_state (g : Gate.gate_state) :
  fst (Gate._release_lock g) = Gate.initial_gate.
Proof.
  destruct g as [[s|]]; reflexivity.
Qed.

(** C10. [_release_lock] is idempotent: with no socket in [lock_socket]
    it changes nothing and touches nothing; after it the lock is never
    held; and a second call right after a first leaves the state of the
    first and closes nothing. *)
Theorem release_lock_idempotent :
  Gate._release_lock {| Gate.lock_socket := None |}
    = ({| Gate.lock_socket := None |}, []) /\
  (forall g, Gate.held (fst (Gate._release_lock g)) = false) /\
  (forall g,
      Gate._release_lock (fst (Gate._release_lock g))
      = (fst (Gate._release_lock g), [])).
Proof.
  split; [reflexivity|]. split.
  - intro g. rewrite release_lock_state. reflexivity.
  - intro g. rewrite release_lock_state. reflexivity.
Qed.

(** ** Start-up *)

Lemma acquire_true_holds (a : Gate.AcqEnv) (g g1 : Gate.gate_state)
      (tr : list Gate.gate_event) :
  Gate._acquire_lock a g = (g1, tr, Ok true) -> Gate.held g1 = true.
Proof.
  unfold Gate._acquire_lock, Gate.on_error.
  destruct (Gate.socket_socket a) as [u|e].
  - destruct (Gate.socket_bind a) as [u'|e].
    + destruct (Gate.socket_listen a) as [u''|e].
      * intro H. inversion H. reflexivity.
      * destruct (Gate.is_OSError e); simpl; intro H; inversion H.
    + destruct (Gate.is_OSError e); simpl; intro H; inversion H.
  - destruct (Gate.is_OSError e); [destruct (Gate.lock_socket g)|];
      intro H; inversion H.
Qed.

(** C5, as stated, fails: the exit status when the gate cannot be
    acquired is the exit status of the unsupported-platform case. *)
Lemma exit_statuses_not_distinct :
  Startup.exit_status (Startup.script Scenario.on_windows_second_instance)
  = Startup.exit_status (Startup.script Scenario.on_linux).
Proof. reflexivity. Qed.

(** C5, amended. Both start-up failures end the process with status 1,
    the same non-zero status, and print their message as the last thing
    before exiting: on a platform other than win32 nothing else happens
    in [main]; when [_acquire_lock] answers [False] the message follows
    the socket calls of the attempt. *)
Theorem startup_failures_exit_1 (e : Startup.StartEnv) (g : Gate.gate_state) :
  ((Startup.sys_platform e =? "win32")%string = false ->
   Startup.main e g = (g, [Startup.SysPrint Startup.MSG_WINDOWS_ONLY], 1)) /\
  ((Startup.sys_platform e =? "win32")%string = true ->
   forall g1 tr,
     Gate._acquire_lock (Startup.acq e) g = (g1, tr, Ok false) ->
     Startup.main e g
     = (g1,
        map Startup.SysGate tr
          ++ [Startup.SysPrint Startup.MSG_OTHER_INSTANCE],
        1)).
Proof.
  unfold Startup.main. split; intro Hp; rewrite Hp; simpl.
  - reflexivity.
  - intros g1 tr Ha. rewrite Ha. reflexivity.
Qed.

Lemma startup_failures_exit_1_witness :
  Startup.main Scenario.on_linux Gate.initial_gate
  = (Gate.initial_gate, [Startup.SysPrint Startup.MSG_WINDOWS_ONLY], 1) /\
  Startup.exit_status
    (Startup.main Scenario.on_windows_second_instance Gate.initial_gate) = 1.
Proof.
  split.
  - apply (proj1 (startup_failures_exit_1 Scenario.on_linux Gate.initial_gate)).
    reflexivity.
  - rewrite (proj2 (startup_failures_exit_1
                      Scenario.on_windows_second_instance Gate.initial_gate)
               eq_refl _ _ eq_refl).
    reflexivity.
Defined.



(** Line 31 comes before the call of [main]: were the imports to succeed
    on another platform (stand-in modules for pywin32), the directory
    would be there by the time the message is printed. *)
Lemma mkdir_precedes_platform_check (e : Startup.StartEnv) :
  (Startup.sys_platform e =? "win32")%string = false ->
  Startup.imports e = Ok tt ->
  Startup.Path_mkdir e = Ok tt ->
  Startup.script e
  = (Gate.initial_gate,
     [Startup.SysMkdir (Clipboard.SAVE_DIR (Startup.Path_home e));
      Startup.SysPrint Startup.MSG_WINDOWS_ONLY],
     1).
Proof.
  intros Hp Hi Hm. unfold Startup.script, Startup.main.
  rewrite Hi, Hm, Hp. reflexivity.
Qed.

(** ** Window-ownership classifier *)

(** A psutil failure is answered with [False]. *)
Lemma pid_is_vscode_psutil_failure (w : Classifier.WinEnv) (pid : Z) (e : exn) :
  Classifier.Process_name w pid = Raise e ->
  is_psutil_Error e = true ->
  Classifier._pid_is_vscode w pid = Ok false.
Proof.
  intros Hn He. unfold Classifier._pid_is_vscode. rewrite Hn, He. reflexivity.
Qed.

(** No window (handle 0) is answered with [False]. *)
Lemma window_at_point_no_window (w : Classifier.WinEnv) (x y : Z) :
  Classifier.WindowFromPoint w (x, y) = 0 ->
  Classifier._window_at_point_is_vscode w x y = Ok false.
Proof.
  intro H. unfold Classifier._window_at_point_is_vscode. rewrite H. reflexivity.
Qed.

(** An exception of [GetWindowThreadProcessId] is handed to the caller of
    either window query. *)
Lemma window_owner_failure_propagates (w : Classifier.WinEnv) (x y : Z) (e : exn) :
  Classifier.WindowFromPoint w (x, y) <> 0 ->
  Classifier.GetWindowThreadProcessId w (Classifier.WindowFromPoint w (x, y))
  = Raise e ->
  Classifier._window_at_point_is_vscode w x y = Raise e.
Proof.
  intros Hz Hr. unfold Classifier._window_at_point_is_vscode.
  apply Z.eqb_neq in Hz. rewrite Hz, Hr. reflexivity.
Qed.

(** C8. The window under the pointer (handle 300) is gone by the time
    its owner is asked for: [_window_at_point_is_vscode] does not answer
    [False], the window system's exception comes out of it; so it does
    out of [_foreground_is_vscode] and out of the click handler. *)
Theorem window_query_raises_on_vanished_window :
  Classifier._window_at_point_is_vscode (Scenario.desktop 200 300) 10 10
  = Raise (pywintypes_error 1400) /\
  Classifier._foreground_is_vscode (Scenario.desktop 300 200)
  = Raise (pywintypes_error 1400) /\
  value (run_seq Scenario.snap
           (Coordinator._click_handler
              (Scenario.click (Scenario.desktop 200 300) 1000.5%float
                 (Scenario.clipboard 41 true Scenario.old_dib) Scenario.disk)
              Scenario.left_down))
  = Raise (pywintypes_error 1400).
Proof. repeat split. Qed.

(** ** Click handler, run on its own *)

Ltac split_results :=
  repeat match goal with
         | |- context [match ?r with Ok _ => _ | Raise _ => _ end] =>
             destruct r eqn:?; simpl
         | |- context [if ?b then _ else _] => destruct b eqn:?; simpl
         end.

Lemma save_calls_app (l1 l2 : list action) :
  Coordinator.save_calls (l1 ++ l2)
  = Coordinator.save_calls l1 ++ Coordinator.save_calls l2.
Proof. apply flat_map_app. Qed.

(** [save_and_report] calls [_save_image] once, on the payload it is
    given, writes no global, and ends with a path or an exception. *)
Lemma run_save_and_report (e : Coordinator.ClickEnv) (dib : bytes) (st : store) :
  let r := run_seq st (Coordinator.save_and_report e dib) in
  final_store r = st /\
  Coordinator.save_calls (actions r) = [dib] /\
  reads (actions r) = [] /\
  ((exists ex, value r = Raise ex) \/
   (exists p, value r = Ok (Coordinator.Completed p))).
Proof.
  unfold Coordinator.save_and_report, Clipboard._save_image. simpl.
  split_results; repeat split; eauto.
Qed.

(** The gates of lines 153-163 in the order they are taken. *)
Lemma run_gated (e : Coordinator.ClickEnv) (st : store) :
  run_seq st (Coordinator.gated e) =
  let rd_ts := Mem (RdTs (last_snip_ts st)) in
  let call_seq := Ext (EvSeq (Clipboard._seq (Coordinator.clip e))) in
  let rd_seq := Mem (RdSeq (last_snip_seq st)) in
  if Coordinator.suppressed (Coordinator.time_time e) (last_snip_ts st) then
    (st, [rd_ts], Ok Coordinator.Suppressed)
  else if negb (Clipboard._seq (Coordinator.clip e) =? last_snip_seq st)%Z then
    (st, [rd_ts; call_seq; rd_seq], Ok Coordinator.Stale)
  else if negb (Clipboard._dib_available (Coordinator.clip e)) then
    (st, [rd_ts; call_seq; rd_seq; Ext (EvDibAvailable false)],
     Ok Coordinator.Stale)
  else
    let r := run_seq st (Coordinator.save_and_report e (last_snip_bytes st)) in
    (final_store r,
     [rd_ts; call_seq; rd_seq; Ext (EvDibAvailable true);
      Mem (RdBytes (last_snip_bytes st))] ++ actions r,
     value r).
Proof.
  unfold Coordinator.gated. simpl.
  destruct (Coordinator.suppressed _ _); [reflexivity|]. simpl.
  destruct (negb (_ =? _)%Z); [reflexivity|]. simpl.
  destruct (Clipboard._dib_available _); simpl; [|reflexivity].
  destruct (run_seq st _) as [[st' l] v]. reflexivity.
Qed.

(** A left-button press is handed to the scope check. *)
Lemma handler_left_down (e : Coordinator.ClickEnv) (t : Q) :
  Coordinator._click_handler e
    (Coordinator.ButtonEvent Coordinator.DOWN Coordinator.LEFT t)
  = match Coordinator.in_scope e with
    | Raise ex => Ret (Raise ex)
    | Ok false => Ret (Ok Coordinator.OutOfScope)
    | Ok true => Coordinator.gated e
    end.
Proof. reflexivity. Qed.

Lemma gated_not_out_of_scope (e : Coordinator.ClickEnv) (st : store) :
  value (run_seq st (Coordinator.gated e)) <> Ok Coordinator.OutOfScope.
Proof.
  rewrite run_gated. cbv zeta.
  destruct (run_save_and_report e (last_snip_bytes st) st) as (_ & _ & _ & Hv).
  destruct (Coordinator.suppressed _ _); [discriminate|].
  destruct (negb (_ =? _)%Z); [discriminate|].
  destruct (negb (Clipboard._dib_available _)); [discriminate|].
  unfold value at 1. cbn [snd].
  destruct Hv as [[ex Hv]|[p Hv]]; rewrite Hv; discriminate.
Qed.

(** C4. On a left-button press: when neither the foreground window nor
    the window under the pointer is VS Code, the handler returns at
    line 151 having read no global and called nothing, whatever the
    snapshot and the clipboard are; when the foreground window is (the
    other is then not even asked), or when it is not and the window
    under the pointer is, the handler goes on to the gates behind the
    scope check, which never return at line 151. *)
Theorem scope_gate (e : Coordinator.ClickEnv) (t : Q) :
  let ev := Coordinator.ButtonEvent Coordinator.DOWN Coordinator.LEFT t in
  let fg := Classifier._foreground_is_vscode (Coordinator.win e) in
  let pt := Classifier._window_at_point_is_vscode (Coordinator.win e)
              (fst (Coordinator.get_position e))
              (snd (Coordinator.get_position e)) in
  (fg = Ok false -> pt = Ok false ->
   forall st, run_seq st (Coordinator._click_handler e ev)
              = (st, [], Ok Coordinator.OutOfScope)) /\
  (fg = Ok true -> Coordinator._click_handler e ev = Coordinator.gated e) /\
  (fg = Ok false -> pt = Ok true ->
   Coordinator._click_handler e ev = Coordinator.gated e) /\
  (forall st, value (run_seq st (Coordinator.gated e))
              <> Ok Coordinator.OutOfScope).
Proof.
  cbv zeta. rewrite handler_left_down. unfold Coordinator.in_scope.
  destruct (Coordinator.get_position e) as [x y]. simpl fst; simpl snd.
  repeat split.
  - intros Hf Hp st. rewrite Hf, Hp. reflexivity.
  - intros Hf. rewrite Hf. reflexivity.
  - intros Hf Hp. rewrite Hf, Hp. reflexivity.
  - intro st. apply gated_not_out_of_scope.
Qed.

Lemma scope_gate_witness :
  run_seq Scenario.snap
    (Coordinator._click_handler
       (Scenario.click (Scenario.desktop 200 200) 1000.5%float
          (Scenario.clipboard 41 true Scenario.old_dib) Scenario.disk)
       Scenario.left_down)
  = (Scenario.snap, [], Ok Coordinator.OutOfScope) /\
  Coordinator._click_handler Scenario.good_click Scenario.left_down
  = Coordinator.gated Scenario.good_click /\
  Coordinator._click_handler
    (Scenario.click (Scenario.desktop 200 100) 1000.5%float
       (Scenario.clipboard 41 true Scenario.old_dib) Scenario.disk)
    Scenario.left_down
  = Coordinator.gated
      (Scenario.click (Scenario.desktop 200 100) 1000.5%float
         (Scenario.clipboard 41 true Scenario.old_dib) Scenario.disk).
Proof.
  split; [|split].
  - apply (proj1 (scope_gate
                    (Scenario.click (Scenario.desktop 200 200) 1000.5%float
                       (Scenario.clipboard 41 true Scenario.old_dib)
                       Scenario.disk) 0)); reflexivity.
  - apply (proj1 (proj2 (scope_gate Scenario.good_click 0))); reflexivity.
  - apply (proj1 (proj2 (proj2
             (scope_gate
                (Scenario.click (Scenario.desktop 200 100) 1000.5%float
                   (Scenario.clipboard 41 true Scenario.old_dib)
                   Scenario.disk) 0)))); reflexivity.
Defined.

(** Every run of the handler either returns at once, before any global
    is read, or is a left-button press in scope, handled by the gates. *)
Lemma handler_cases (e : Coordinator.ClickEnv) (ev : Coordinator.mouse_event) :
  (exists v, Coordinator._click_handler e ev = Ret v) \/
  (exists t,
      ev = Coordinator.ButtonEvent Coordinator.DOWN Coordinator.LEFT t /\
      Coordinator.in_scope e = Ok true /\
      Coordinator._click_handler e ev = Coordinator.gated e).
Proof.
  destruct ev as [et b t| |]; simpl; eauto.
  destruct (et =? Coordinator.DOWN)%string eqn:Het; simpl; eauto.
  destruct (b =? Coordinator.LEFT)%string eqn:Hb; simpl; eauto.
  apply String.eqb_eq in Het, Hb. subst.
  destruct (Coordinator.in_scope e) as [[|]|ex] eqn:Hs; eauto.
Qed.

(** The handler never assigns a snapshot global. *)
Lemma handler_keeps_store (e : Coordinator.ClickEnv)
      (ev : Coordinator.mouse_event) (st : store) :
  final_store (run_seq st (Coordinator._click_handler e ev)) = st.
Proof.
  destruct (handler_cases e ev) as [[v H]|(t & _ & _ & H)]; rewrite H.
  - reflexivity.
  - rewrite run_gated. cbv zeta.
    destruct (run_save_and_report e (last_snip_bytes st) st) as (Hst & _).
    destruct (Coordinator.suppressed _ _); [reflexivity|].
    destruct (negb (_ =? _)%Z); [reflexivity|].
    destruct (negb (Clipboard._dib_available _)); [reflexivity|].
    exact Hst.
Qed.

(** C3. Whatever the event: if the handler calls [_save_image] at all,
    the clipboard's sequence number equals [last_snip_seq], CF_DIB is on
    the clipboard, and the payload saved is [last_snip_bytes].  And a
    click that has passed the scope and suppression checks returns at
    line 159, with no save and the globals untouched, when the sequence
    number differs from [last_snip_seq] or CF_DIB is not available. *)
Theorem freshness_gate (e : Coordinator.ClickEnv)
        (ev : Coordinator.mouse_event) (st : store) :
  let r := run_seq st (Coordinator._click_handler e ev) in
  (forall dib, In dib (Coordinator.save_calls (actions r)) ->
     Clipboard._seq (Coordinator.clip e) = last_snip_seq st /\
     Clipboard._dib_available (Coordinator.clip e) = true /\
     dib = last_snip_bytes st) /\
  (forall t,
     ev = Coordinator.ButtonEvent Coordinator.DOWN Coordinator.LEFT t ->
     Coordinator.in_scope e = Ok true ->
     Coordinator.suppressed (Coordinator.time_time e) (last_snip_ts st)
     = false ->
     Clipboard._seq (Coordinator.clip e) <> last_snip_seq st \/
     Clipboard._dib_available (Coordinator.clip e) = false ->
     value r = Ok Coordinator.Stale /\
     Coordinator.save_calls (actions r) = [] /\
     final_store r = st).
Proof.
  cbv zeta. split.
  - intros dib. destruct (handler_cases e ev) as [[v H]|(t & _ & _ & H)];
      rewrite H; [simpl; tauto|].
    rewrite run_gated. cbv zeta.
    destruct (run_save_and_report e (last_snip_bytes st) st)
      as (_ & Hsave & _).
    destruct (Coordinator.suppressed _ _); [simpl; tauto|].
    destruct (Clipboard._seq (Coordinator.clip e) =? last_snip_seq st)%Z
      eqn:Hseq; [|simpl; tauto].
    destruct (Clipboard._dib_available (Coordinator.clip e)) eqn:Hav;
      [|simpl; tauto].
    apply Z.eqb_eq in Hseq. unfold actions at 1. cbn [fst snd negb].
    rewrite save_calls_app, Hsave. simpl. intros [<-|[]]. auto.
  - intros t -> Hs Hsup Hstale. rewrite handler_left_down, Hs, run_gated.
    cbv zeta. rewrite Hsup.
    destruct (Clipboard._seq (Coordinator.clip e) =? last_snip_seq st)%Z
      eqn:Hseq; simpl; [|auto].
    apply Z.eqb_eq in Hseq.
    destruct Hstale as [Hne|Hav]; [contradiction|].
    rewrite Hav. simpl. auto.
Qed.

Lemma freshness_gate_witness :
  (* the clipboard has moved on to state 42 since the snapshot *)
  value (run_seq Scenario.snap
           (Coordinator._click_handler
              (Scenario.click (Scenario.desktop 100 200) 1000.5%float
                 (Scenario.clipboard 42 true Scenario.new_dib) Scenario.disk)
              Scenario.left_down))
  = Ok Coordinator.Stale /\
  (* a save uses the live snapshot *)
  Clipboard._seq (Coordinator.clip Scenario.good_click)
  = last_snip_seq Scenario.snap.
Proof.
  split.
  - apply (proj2 (freshness_gate
                    (Scenario.click (Scenario.desktop 100 200) 1000.5%float
                       (Scenario.clipboard 42 true Scenario.new_dib)
                       Scenario.disk)
                    Scenario.left_down Scenario.snap) 0%Q);
      try reflexivity.
    left. discriminate.
  - apply (proj1 (freshness_gate Scenario.good_click Scenario.left_down
                    Scenario.snap) Scenario.old_dib).
    left. reflexivity.
Defined.

(** Line 154 with its constants written as floats. *)
Lemma suppressed_unfold (now ts : Binary64.float) :
  Coordinator.suppressed now ts
  = PrimFloat.leb (PrimFloat.mul (PrimFloat.sub now ts) 1000%float) 200%float.
Proof. reflexivity. Qed.








(** C6, as stated, fails: the decoder's exception leaves
    [_click_handler]. *)
Lemma sink_failure_escapes_handler :
  value (run_seq Scenario.snap
           (Coordinator._click_handler Scenario.corrupt_click
              Scenario.left_down))
  = Raise UnidentifiedImageError.
Proof. reflexivity. Qed.

(** C6, amended. When [_save_image] raises while an accepted click is
    handled, [_click_handler] ends with that exception, handed to
    whoever called it.  The one call of [_save_image] is all the handler
    did to the outside: nothing is copied to the clipboard, nothing is
    printed, and no snapshot global is assigned, so the watcher finds
    the store as it left it. *)
Theorem sink_failure_propagates (e : Coordinator.ClickEnv) (t : Q)
        (st : store) (ex : exn) :
  Coordinator.in_scope e = Ok true ->
  Coordinator.suppressed (Coordinator.time_time e) (last_snip_ts st) = false ->
  Clipboard._seq (Coordinator.clip e) = last_snip_seq st ->
  Clipboard._dib_available (Coordinator.clip e) = true ->
  value (run_seq st (Clipboard._save_image (Coordinator.sink e)
                       (last_snip_bytes st))) = Raise ex ->
  let r := run_seq st
             (Coordinator._click_handler e
                (Coordinator.ButtonEvent Coordinator.DOWN Coordinator.LEFT t)) in
  value r = Raise ex /\
  final_store r = st /\
  Coordinator.save_calls (actions r) = [last_snip_bytes st] /\
  (forall text, ~ In (EvCopy text) (events (actions r))) /\
  (forall text, ~ In (EvPrint text) (events (actions r))).
Proof.
  intros Hs Hsup Hseq Hav Hraise. cbv zeta.
  rewrite handler_left_down, Hs, run_gated. cbv zeta.
  apply Z.eqb_eq in Hseq. rewrite Hsup, Hseq, Hav. cbn [negb].
  revert Hraise.
  unfold Coordinator.save_and_report, Clipboard._save_image. simpl.
  destruct (Clipboard.Image_open (Coordinator.sink e) (last_snip_bytes st));
    simpl.
  - destruct (Clipboard.Image_save _ _ _); simpl.
    + discriminate.
    + intros [= ->]. unfold final_store, actions, value. simpl.
      repeat split; intros text H; intuition discriminate.
  - intros [= ->]. unfold final_store, actions, value. simpl.
    repeat split; intros text H; intuition discriminate.
Qed.

Lemma sink_failure_propagates_witness :
  value (run_seq Scenario.snap
           (Coordinator._click_handler Scenario.corrupt_click
              (Coordinator.ButtonEvent Coordinator.DOWN Coordinator.LEFT 0)))
  = Raise UnidentifiedImageError /\
  final_store
    (run_seq Scenario.snap
       (Coordinator._click_handler Scenario.corrupt_click
          (Coordinator.ButtonEvent Coordinator.DOWN Coordinator.LEFT 0)))
  = Scenario.snap.
Proof.
  pose proof (sink_failure_propagates Scenario.corrupt_click 0 Scenario.snap
                (ex := UnidentifiedImageError)
                eq_refl eq_refl eq_refl eq_refl eq_refl) as H.
  split; apply H.
Defined.

(** ** Clipboard watcher *)

(** Passes that see the token they remember do nothing but look and
    sleep. *)
Lemma loop_same_token (s : Z) (envs : list Poller.PollEnv) (st : store) :
  Forall (fun e' => Clipboard._seq (Poller.clip e') = s) envs ->
  run_seq st (Poller.loop envs s)
  = (st,
     flat_map (fun _ => [Ext (EvSeq s); Ext (EvSleep 50)]) envs,
     s).
Proof.
  induction 1 as [|e' envs He _ IH]; [reflexivity|].
  simpl. unfold Poller.iteration. rewrite He, Z.eqb_refl. simpl.
  rewrite IH. reflexivity.
Qed.



(** ** Watcher against hook: what a concurrent reader can see *)

Lemma by_thread_app (t : tid) (l1 l2 : list (tid * action)) :
  by_thread t (l1 ++ l2) = by_thread t l1 ++ by_thread t l2.
Proof.
  induction l1 as [|[t' a] l1 IH]; simpl; [reflexivity|].
  destruct t, t'; simpl; rewrite IH; reflexivity.
Qed.

Lemma reads_app (l1 l2 : list action) :
  reads (l1 ++ l2) = reads l1 ++ reads l2.
Proof.
  induction l1 as [|[[]|] l1 IH]; simpl; rewrite ?IH; reflexivity.
Qed.

Lemma handler_reads_poller_step (l : list (tid * action)) (a : action) :
  reads (by_thread Handler (l ++ [(Poller, a)])) = reads (by_thread Handler l).
Proof.
  rewrite by_thread_app. simpl. rewrite app_nil_r. reflexivity.
Qed.

Lemma handler_reads_handler_step (l : list (tid * action)) (a : action) :
  reads (by_thread Handler (l ++ [(Handler, a)]))
  = reads (by_thread Handler l) ++ reads [a].
Proof.
  rewrite by_thread_app, reads_app. reflexivity.
Qed.

Lemma reads_ok_later (old new : store) (n i i' : nat) (l : list access) :
  (i <= i')%nat ->
  Publication.reads_ok old new n i l -> Publication.reads_ok old new n i' l.
Proof.
  intros Hle. destruct n as [|[|[|[|n]]]]; simpl; auto.
  - intros (j1 & H & ->). exists j1. split; [lia|reflexivity].
  - intros (j1 & j2 & H & ->). exists j1, j2. split; [lia|reflexivity].
  - intros (j1 & j2 & j3 & H & H' & ->). exists j1, j2, j3.
    repeat split; try lia.
Qed.

(** A pass of the watcher assigns either nothing or payload, token and
    timestamp in that order. *)
Lemma iteration_wphase (e : Poller.PollEnv) (prev : Z) (st : store) :
  let new := final_store (run_seq st (Poller.iteration e prev)) in
  exists i, (i <= 3)%nat /\
    Publication.wphase (last_snip_bytes new) (last_snip_seq new)
                       (last_snip_ts new) i (Poller.iteration e prev) /\
    st = Publication.mem_at st new i.
Proof.
  unfold Poller.iteration.
  destruct (negb (Clipboard._seq (Poller.clip e) =? prev)%Z); simpl.
  - destruct (Clipboard._dib_available (Poller.clip e)); simpl.
    + destruct (Clipboard._read_dib (Poller.clip e)) as [[|c d]|]; simpl.
      * exists 3%nat. destruct st. repeat constructor.
      * exists 0%nat. destruct st. repeat constructor.
      * exists 3%nat. destruct st. repeat constructor.
    + exists 3%nat. destruct st. repeat constructor.
  - exists 3%nat. destruct st. repeat constructor.
Qed.

(** The hook loads timestamp, token and payload in that order, each at
    most once, and may return between any two of them. *)
Lemma handler_rphase (e : Coordinator.ClickEnv) (ev : Coordinator.mouse_event) :
  Publication.rphase 0 (Coordinator._click_handler e ev).
Proof.
  destruct (handler_cases e ev) as [[v H]|(t & _ & _ & H)]; rewrite H.
  - constructor.
  - unfold Coordinator.gated, Coordinator.save_and_report,
      Clipboard._save_image. simpl.
    constructor. intro ts.
    destruct (Coordinator.suppressed _ ts); simpl; [constructor|].
    constructor. constructor. intro s.
    destruct (negb _); simpl; [constructor|].
    constructor.
    destruct (negb _); simpl; [constructor|].
    constructor. intro dib. constructor.
    destruct (Clipboard.Image_open _ _); simpl; [|constructor].
    constructor.
    destruct (Clipboard.Image_save _ _ _); simpl; [|constructor].
    constructor.
    destruct (Coordinator.pyperclip_copy _ _); simpl; repeat constructor.
Qed.

(** One scheduling decision keeps the invariant. *)
Lemma inv_step {A B} (old new : store) (t : tid) (c : config A B) :
  Publication.inv old new c -> Publication.inv old new (sched_step t c).
Proof.
  intros (i & n & Hi & Hw & Hm & Hr & Hl).
  destruct c as [m p h l]. unfold Publication.handler_reads in *.
  simpl in *. destruct t; simpl.
  - (* the watcher moves *)
    inversion Hw; subst; simpl.
    + exists 3%nat, n. simpl. auto.
    + exists i, n. unfold Publication.handler_reads. simpl.
      rewrite handler_reads_poller_step. auto.
    + exists 3%nat, n. unfold Publication.handler_reads. simpl.
      rewrite handler_reads_poller_step.
      repeat split; auto. eapply reads_ok_later; [|exact Hl]. lia.
    + exists 2%nat, n. unfold Publication.handler_reads. simpl.
      rewrite handler_reads_poller_step.
      repeat split; auto. eapply reads_ok_later; [|exact Hl]. lia.
    + exists 1%nat, n. unfold Publication.handler_reads. simpl.
      rewrite handler_reads_poller_step.
      repeat split; auto. eapply reads_ok_later; [|exact Hl]. lia.
  - (* the hook moves *)
    inversion Hr; subst; simpl.
    + exists i, n. simpl. auto.
    + exists i, n. unfold Publication.handler_reads. simpl.
      rewrite handler_reads_handler_step. simpl. rewrite app_nil_r. auto.
    + exists i, 1%nat. unfold Publication.handler_reads. simpl.
      rewrite handler_reads_handler_step. simpl in Hl. rewrite Hl. simpl.
      repeat split; auto. exists i. auto.
    + exists i, 2%nat. unfold Publication.handler_reads. simpl.
      rewrite handler_reads_handler_step.
      destruct Hl as (j1 & Hj & ->). simpl.
      repeat split; auto. exists j1, i. auto.
    + exists i, 3%nat. unfold Publication.handler_reads. simpl.
      rewrite handler_reads_handler_step.
      destruct Hl as (j1 & j2 & Hj & ->). simpl.
      repeat split; auto. exists j1, j2, i. repeat split; auto; lia.
Qed.

Lemma inv_interleave {A B} (old new : store) (sched : list tid)
      (c : config A B) :
  Publication.inv old new c -> Publication.inv old new (interleave sched c).
Proof.
  revert c. induction sched as [|t sched IH]; intros c Hc; simpl; auto.
  apply IH, inv_step, Hc.
Qed.

(** C1, as stated, fails.  The hook has read the timestamp of the old
    snapshot and checked its token against the clipboard (state 41, still
    current); the clipboard then changes to state 42 and the watcher
    assigns the new payload; the hook now loads the payload.  The triple
    it has read is the old timestamp and the old token with the new
    payload, neither the old snapshot nor the new one, and the new
    payload is what it saves. *)
Lemma torn_read_observed :
  Publication.observed_triple (Publication.handler_reads Scenario.torn_run)
  = Some Scenario.torn_triple /\
  Scenario.torn_triple <> Scenario.snap /\
  Scenario.torn_triple
  <> final_store (run_seq Scenario.snap
                    (Poller.iteration Scenario.new_snip 41)) /\
  Coordinator.save_calls (by_thread Handler (log Scenario.torn_run))
  = [Scenario.new_dib] /\
  mem Scenario.torn_run
  = final_store (run_seq Scenario.snap
                   (Poller.iteration Scenario.new_snip 41)).
Proof.
  repeat split; try discriminate.
Qed.

(** C1, amended.  The watcher publishes a snapshot by three separate
    assignments, payload, then token, then timestamp, and the hook
    loads timestamp, then token, then payload, with no lock on either
    side.  Under every interleaving of one pass of the watcher with one
    run of the hook, the triple the hook has read is the old snapshot,
    or the new one, or the old timestamp and token with the new payload,
    or the old timestamp with the new token and payload: a token is
    never read together with a payload older than it, nor a timestamp
    with a token or payload older than it. *)
Theorem publication_staged (sched : list tid) (st : store)
        (pe : Poller.PollEnv) (prev : Z)
        (e : Coordinator.ClickEnv) (ev : Coordinator.mouse_event)
        (obs : store) :
  let watcher := Poller.iteration pe prev in
  let c := interleave sched
             (start st watcher (Coordinator._click_handler e ev)) in
  Publication.observed_triple (Publication.handler_reads c) = Some obs ->
  Publication.staged st (final_store (run_seq st watcher)) obs.
Proof.
  cbv zeta. set (new := final_store (run_seq st (Poller.iteration pe prev))).
  assert (Hinv : Publication.inv st new
                   (start st (Poller.iteration pe prev)
                      (Coordinator._click_handler e ev))).
  { destruct (iteration_wphase pe prev st) as (i & Hi & Hw & Hm).
    exists i, 0%nat. repeat split; auto. apply handler_rphase. }
  apply (inv_interleave sched) in Hinv. clearbody new.
  destruct Hinv as (i & n & Hi & _ & _ & _ & Hl).
  intros Hobs. unfold Publication.staged.
  destruct n as [|[|[|[|n]]]]; cbn [Publication.reads_ok] in Hl.
  - rewrite Hl in Hobs. discriminate.
  - destruct Hl as (j1 & _ & Hl). rewrite Hl in Hobs. discriminate.
  - destruct Hl as (j1 & j2 & _ & Hl). rewrite Hl in Hobs. discriminate.
  - destruct Hl as (j1 & j2 & j3 & Hj & Hj3 & Hl). rewrite Hl in Hobs.
    unfold Publication.observed_triple in Hobs. injection Hobs as <-.
    destruct st as [t0 s0 b0], new as [t1 s1 b1].
    destruct j1 as [|[|[|[|j1]]]]; try lia;
      destruct j2 as [|[|[|[|j2]]]]; try lia;
      destruct j3 as [|[|[|[|j3]]]]; try lia;
      cbn;
      first [ left; reflexivity
            | right; left; reflexivity
            | right; right; left; reflexivity
            | right; right; right; reflexivity ].
  - contradiction.
Qed.

Lemma publication_staged_witness :
  Publication.staged Scenario.snap
    (final_store (run_seq Scenario.snap (Poller.iteration Scenario.new_snip 41)))
    Scenario.torn_triple.
Proof.
  apply (publication_staged Scenario.torn_schedule
           Scenario.snap Scenario.new_snip 41
           Scenario.good_click Scenario.left_down).
  reflexivity.
Defined.

(** * Further properties of the code *)

(** ** Single-instance gate and start-up *)

(** X1. When [_acquire_lock] returns a boolean, it is [True] exactly when
    the three socket calls all succeeded, and the port is then held; on
    [False] nothing is held: the socket the attempt created, or the one
    [lock_socket] named before, has been closed. *)
Theorem acquire_outcome (a : Gate.AcqEnv) (g : Gate.gate_state) (b : bool) :
  snd (Gate._acquire_lock a g) = Ok b ->
  b = Calls.is_ok (Gate.socket_socket a) && Calls.is_ok (Gate.socket_bind a)
      && Calls.is_ok (Gate.socket_listen a) /\
  Gate.held (fst (fst (Gate._acquire_lock a g))) = b.
Proof.
  unfold Gate._acquire_lock, Gate.on_error.
  destruct (Gate.socket_socket a) as [u|e]; simpl.
  - destruct (Gate.socket_bind a) as [u'|e]; simpl.
    + destruct (Gate.socket_listen a) as [u''|e]; simpl.
      * intros [= <-]. auto.
      * destruct (Gate.is_OSError e); simpl; intros [= <-]. auto.
    + destruct (Gate.is_OSError e); simpl; intros [= <-]. auto.
  - destruct (Gate.is_OSError e); [destruct (Gate.lock_socket g) as [s|] eqn:Hg|];
      simpl; intros [= <-]; split; auto.
    unfold Gate.held. rewrite Hg. reflexivity.
Qed.

Lemma acquire_outcome_witness :
  Gate.held (fst (fst (Gate._acquire_lock Scenario.port_taken Gate.initial_gate)))
  = false.
Proof.
  apply (acquire_outcome Scenario.port_taken Gate.initial_gate (b := false)).
  reflexivity.
Defined.

(** X2. Releasing after a successful acquire closes exactly one socket
    and clears [lock_socket], whatever [lock_socket] was before the
    acquire. *)
Theorem acquire_then_release (a : Gate.AcqEnv) (g : Gate.gate_state) :
  snd (Gate._acquire_lock a g) = Ok true ->
  Gate._release_lock (fst (fst (Gate._acquire_lock a g)))
  = (Gate.initial_gate, [Gate.SockClose]).
Proof.
  unfold Gate._acquire_lock, Gate.on_error.
  destruct (Gate.socket_socket a) as [u|e]; simpl.
  - destruct (Gate.socket_bind a) as [u'|e]; simpl.
    + destruct (Gate.socket_listen a) as [u''|e]; simpl.
      * reflexivity.
      * destruct (Gate.is_OSError e); simpl; discriminate.
    + destruct (Gate.is_OSError e); simpl; discriminate.
  - destruct (Gate.is_OSError e); [destruct (Gate.lock_socket g)|];
      simpl; discriminate.
Qed.

Lemma acquire_then_release_witness :
  Gate._release_lock
    (fst (fst (Gate._acquire_lock Scenario.port_free Gate.initial_gate)))
  = (Gate.initial_gate, [Gate.SockClose]).
Proof.
  apply (acquire_then_release Scenario.port_free Gate.initial_gate).
  reflexivity.
Defined.

(** X3. The process exit status is 0 exactly when the imports, the
    directory creation and the three socket calls all succeeded on
    win32; in every other case it is 1. *)
Theorem script_exit_status (e : Startup.StartEnv) :
  Startup.exit_status (Startup.script e)
  = if Calls.is_ok (Startup.imports e)
       && Calls.is_ok (Startup.Path_mkdir e)
       && (Startup.sys_platform e =? "win32")%string
       && Calls.is_ok (Gate.socket_socket (Startup.acq e))
       && Calls.is_ok (Gate.socket_bind (Startup.acq e))
       && Calls.is_ok (Gate.socket_listen (Startup.acq e))
    then 0 else 1.
Proof.
  unfold Startup.script, Startup.main, Gate._acquire_lock, Gate.on_error.
  destruct (Startup.imports e); simpl; [|reflexivity].
  destruct (Startup.Path_mkdir e); simpl; [|reflexivity].
  destruct (Startup.sys_platform e =? "win32")%string; simpl; [|reflexivity].
  destruct (Gate.socket_socket (Startup.acq e)) as [u|ex]; simpl.
  - destruct (Gate.socket_bind (Startup.acq e)) as [u'|ex]; simpl.
    + destruct (Gate.socket_listen (Startup.acq e)) as [u''|ex]; simpl.
      * reflexivity.
      * destruct (Gate.is_OSError ex); reflexivity.
    + destruct (Gate.is_OSError ex); reflexivity.
  - destruct (Gate.is_OSError ex); reflexivity.
Qed.

(** X4. A run that gets the lock and is stopped by Ctrl-C: the socket
    calls, the banner, the watcher thread, the hook, the sleeps, then
    the stop message, the unhook and last the release; [lock_socket] is
    [None] again and the status is 0. *)
Theorem main_normal_shutdown (e : Startup.StartEnv) (g : Gate.gate_state) :
  (Startup.sys_platform e =? "win32")%string = true ->
  snd (Gate._acquire_lock (Startup.acq e) g) = Ok true ->
  Startup.main e g
  = (Gate.initial_gate,
     map Startup.SysGate
       [Gate.SockCreate; Gate.SockBind "127.0.0.1" 19847; Gate.SockListen 1]
       ++ [Startup.SysPrint Startup.MSG_RUNNING;
           Startup.SysThreadStart; Startup.SysHook]
       ++ repeat (Startup.SysSleep 1) (Startup.interrupt_after e)
       ++ [Startup.SysPrint Startup.MSG_STOPPING; Startup.SysUnhook;
           Startup.SysGate Gate.SockClose],
     0).
Proof.
  intros Hp. unfold Startup.main. rewrite Hp. simpl.
  unfold Gate._acquire_lock, Gate.on_error.
  destruct (Gate.socket_socket (Startup.acq e)) as [u|ex]; simpl.
  - destruct (Gate.socket_bind (Startup.acq e)) as [u'|ex]; simpl.
    + destruct (Gate.socket_listen (Startup.acq e)) as [u''|ex]; simpl.
      * reflexivity.
      * destruct (Gate.is_OSError ex); simpl; discriminate.
    + destruct (Gate.is_OSError ex); simpl; discriminate.
  - destruct (Gate.is_OSError ex); [destruct (Gate.lock_socket g)|];
      simpl; discriminate.
Qed.

Lemma main_normal_shutdown_witness :
  Startup.exit_status (Startup.main Scenario.on_windows Gate.initial_gate) = 0.
Proof.
  rewrite (main_normal_shutdown Scenario.on_windows Gate.initial_gate
             eq_refl eq_refl).
  reflexivity.
Defined.

Lemma no_hook_among_gate_events (tr : list Gate.gate_event) :
  existsb (fun ev => Calls.is_hook ev || Calls.is_thread_start ev)
          (map Startup.SysGate tr) = false.
Proof.
  induction tr as [|x tr IH]; simpl; auto.
Qed.

(** X5. [main] starts the watcher thread or installs the hook only on
    win32 and only after [_acquire_lock] has returned [True]. *)
Theorem hook_only_with_lock (e : Startup.StartEnv) (g : Gate.gate_state) :
  existsb (fun ev => Calls.is_hook ev || Calls.is_thread_start ev)
          (Startup.trace (Startup.main e g)) = true ->
  (Startup.sys_platform e =? "win32")%string = true /\
  snd (Gate._acquire_lock (Startup.acq e) g) = Ok true.
Proof.
  unfold Startup.main, Startup.trace.
  destruct (Startup.sys_platform e =? "win32")%string; simpl;
    [|discriminate].
  destruct (Gate._acquire_lock (Startup.acq e) g) as [[g1 tr] [[|]|ex]];
    simpl.
  - auto.
  - rewrite existsb_app, no_hook_among_gate_events. simpl. discriminate.
  - rewrite existsb_app, no_hook_among_gate_events. simpl. discriminate.
Qed.

Lemma hook_only_with_lock_witness :
  (Startup.sys_platform Scenario.on_windows =? "win32")%string = true /\
  snd (Gate._acquire_lock (Startup.acq Scenario.on_windows) Gate.initial_gate)
  = Ok true.
Proof.
  apply (hook_only_with_lock Scenario.on_windows Gate.initial_gate).
  reflexivity.
Defined.

(** ** Classifier and click handler *)

(** X6. [_pid_is_vscode] never raises a [psutil.Error]: an exception
    that comes out of it is the one the process lookup raised, and it is
    of another class. *)
Theorem pid_is_vscode_raises (w : Classifier.WinEnv) (pid : Z) (ex : exn) :
  Classifier._pid_is_vscode w pid = Raise ex ->
  Classifier.Process_name w pid = Raise ex /\ is_psutil_Error ex = false.
Proof.
  unfold Classifier._pid_is_vscode.
  destruct (Classifier.Process_name w pid) as [name|e]; [discriminate|].
  destruct (is_psutil_Error e) eqn:He; [discriminate|].
  intros [= <-]. auto.
Qed.

Lemma pid_is_vscode_raises_witness :
  Classifier.Process_name
    {| Classifier.GetForegroundWindow := 100;
       Classifier.WindowFromPoint := fun _ => 100;
       Classifier.GetWindowThreadProcessId := Scenario.window_owner;
       Classifier.Process_name := fun _ => Raise (OSError 5) |} 7
  = Raise (OSError 5) /\ is_psutil_Error (OSError 5) = false.
Proof.
  apply (pid_is_vscode_raises
           {| Classifier.GetForegroundWindow := 100;
              Classifier.WindowFromPoint := fun _ => 100;
              Classifier.GetWindowThreadProcessId := Scenario.window_owner;
              Classifier.Process_name := fun _ => Raise (OSError 5) |} 7).
  reflexivity.
Defined.

(** X7. When the foreground query raises, the handler ends with that
    exception at once: the window under the pointer is not asked, no
    global is read and nothing is called, even if the pointer is over
    VS Code. *)
Theorem foreground_failure_ends_handler (e : Coordinator.ClickEnv) (t : Q)
        (st : store) (ex : exn) :
  Classifier._foreground_is_vscode (Coordinator.win e) = Raise ex ->
  run_seq st (Coordinator._click_handler e
                (Coordinator.ButtonEvent Coordinator.DOWN Coordinator.LEFT t))
  = (st, [], Raise ex).
Proof.
  intro H. rewrite handler_left_down. unfold Coordinator.in_scope.
  destruct (Coordinator.get_position e) as [x y]. rewrite H. reflexivity.
Qed.

Lemma foreground_failure_ends_handler_witness :
  run_seq Scenario.snap
    (Coordinator._click_handler Cases.foreground_gone
       (Coordinator.ButtonEvent Coordinator.DOWN Coordinator.LEFT 0))
  = (Scenario.snap, [], Raise (pywintypes_error 1400)) /\
  Classifier._window_at_point_is_vscode
    (Coordinator.win Cases.foreground_gone) 10 10 = Ok true.
Proof.
  split; [|reflexivity].
  apply (foreground_failure_ends_handler Cases.foreground_gone 0 Scenario.snap).
  reflexivity.
Defined.

(** X8. Any event other than the left button going down (another button,
    a release, a double click, a move, a wheel turn) is dropped before
    the pointer position, the windows, the clipboard or a global is
    looked at. *)
Theorem other_events_ignored (e : Coordinator.ClickEnv)
        (ev : Coordinator.mouse_event) (st : store) :
  Calls.is_left_down ev = false ->
  exists v,
    run_seq st (Coordinator._click_handler e ev) = (st, [], Ok v) /\
    (v = Coordinator.NotButtonEvent \/ v = Coordinator.NotLeftDown).
Proof.
  destruct ev as [et b t|x y t|d t]; simpl; eauto.
  destruct (et =? Coordinator.DOWN)%string; simpl; eauto.
  destruct (b =? Coordinator.LEFT)%string; simpl; eauto.
  discriminate.
Qed.

Lemma other_events_ignored_witness :
  exists v,
    run_seq Scenario.snap
      (Coordinator._click_handler Scenario.good_click Cases.right_down)
    = (Scenario.snap, [], Ok v) /\
    (v = Coordinator.NotButtonEvent \/ v = Coordinator.NotLeftDown).
Proof.
  apply (other_events_ignored Scenario.good_click Cases.right_down
           Scenario.snap).
  reflexivity.
Defined.

Lemma writes_app (l1 l2 : list action) :
  writes (l1 ++ l2) = writes l1 ++ writes l2.
Proof.
  induction l1 as [|[[]|] l1 IH]; simpl; rewrite ?IH; reflexivity.
Qed.

Lemma save_and_report_writes (e : Coordinator.ClickEnv) (dib : bytes)
      (st : store) :
  writes (actions (run_seq st (Coordinator.save_and_report e dib))) = [].
Proof.
  unfold Coordinator.save_and_report, Clipboard._save_image. simpl.
  split_results; reflexivity.
Qed.

(** X9. Whatever the event and the environment, one run of the handler
    assigns no snapshot global and calls [_save_image] at most once. *)
Theorem handler_writes_nothing (e : Coordinator.ClickEnv)
        (ev : Coordinator.mouse_event) (st : store) :
  let r := run_seq st (Coordinator._click_handler e ev) in
  writes (actions r) = [] /\
  final_store r = st /\
  (List.length (Coordinator.save_calls (actions r)) <= 1)%nat.
Proof.
  cbv zeta.
  destruct (handler_cases e ev) as [[v H]|(t & _ & _ & H)]; rewrite H.
  - simpl. auto.
  - rewrite run_gated. cbv zeta.
    destruct (run_save_and_report e (last_snip_bytes st) st)
      as (Hst & Hsave & _).
    pose proof (save_and_report_writes e (last_snip_bytes st) st) as Hw.
    destruct (Coordinator.suppressed _ _); [simpl; auto|].
    destruct (negb (_ =? _)%Z); [simpl; auto|].
    destruct (negb (Clipboard._dib_available _)); [simpl; auto|].
    unfold actions, final_store in *. cbn [fst snd] in *.
    rewrite writes_app, save_calls_app, Hw, Hsave. simpl. auto.
Qed.

(** What [save_and_report] does once decoder, file system and clipboard
    have answered. *)
Lemma run_save_and_report_cases (e : Coordinator.ClickEnv) (dib : bytes)
      (st : store) :
  let p := Clipboard.SAVE_DIR (Clipboard.Path_home (Coordinator.sink e))
             ++ [Calls.screenshot_name (Clipboard.strftime (Coordinator.sink e))] in
  let text := Clipboard.path_str (Clipboard.os_sep (Coordinator.sink e)) p in
  run_seq st (Coordinator.save_and_report e dib)
  = match Clipboard.Image_open (Coordinator.sink e) dib with
    | Raise ex => (st, [Ext (EvImageOpen dib)], Raise ex)
    | Ok _ =>
        match Clipboard.Image_save (Coordinator.sink e) dib text with
        | Raise ex =>
            (st, [Ext (EvImageOpen dib); Ext (EvImageSave text)], Raise ex)
        | Ok _ =>
            match Coordinator.pyperclip_copy e text with
            | Raise ex =>
                (st, [Ext (EvImageOpen dib); Ext (EvImageSave text);
                      Ext (EvCopy text)], Raise ex)
            | Ok _ =>
                (st, [Ext (EvImageOpen dib); Ext (EvImageSave text);
                      Ext (EvCopy text);
                      Ext (EvPrint ("✓ Saved → " ++ text
                                      ++ "  (path copied)")%string)],
                 Ok (Coordinator.Completed p))
            end
        end
    end.
Proof.
  cbv zeta.
  unfold Coordinator.save_and_report, Clipboard._save_image,
    Calls.screenshot_name.
  simpl. split_results; reflexivity.
Qed.

(** X10. An accepted click whose save and copy succeed: the file written,
    the text put on the clipboard and the path in the confirmation are
    one and the same, [SAVE_DIR/screenshot_<stamp>.png]; the calls are
    made in the order decode, write, copy, print. *)
Theorem accepted_click_reports_saved_path (e : Coordinator.ClickEnv) (t : Q)
        (st : store) :
  let p := Clipboard.SAVE_DIR (Clipboard.Path_home (Coordinator.sink e))
             ++ [Calls.screenshot_name (Clipboard.strftime (Coordinator.sink e))] in
  let text := Clipboard.path_str (Clipboard.os_sep (Coordinator.sink e)) p in
  let r := run_seq st
             (Coordinator._click_handler e
                (Coordinator.ButtonEvent Coordinator.DOWN Coordinator.LEFT t)) in
  Coordinator.in_scope e = Ok true ->
  Coordinator.suppressed (Coordinator.time_time e) (last_snip_ts st) = false ->
  Clipboard._seq (Coordinator.clip e) = last_snip_seq st ->
  Clipboard._dib_available (Coordinator.clip e) = true ->
  Clipboard.Image_open (Coordinator.sink e) (last_snip_bytes st) = Ok tt ->
  Clipboard.Image_save (Coordinator.sink e) (last_snip_bytes st) text = Ok tt ->
  Coordinator.pyperclip_copy e text = Ok tt ->
  value r = Ok (Coordinator.Completed p) /\
  events (actions r)
  = [EvSeq (last_snip_seq st); EvDibAvailable true;
     EvImageOpen (last_snip_bytes st); EvImageSave text; EvCopy text;
     EvPrint ("✓ Saved → " ++ text ++ "  (path copied)")%string].
Proof.
  cbv zeta. intros Hs Hsup Hseq Hav Hopen Hsave Hcopy.
  rewrite handler_left_down, Hs, run_gated. cbv zeta.
  rewrite Hsup, Hseq, Z.eqb_refl, Hav. cbn [negb].
  rewrite run_save_and_report_cases. cbv zeta.
  rewrite Hopen, Hsave, Hcopy. split; reflexivity.
Qed.

Lemma accepted_click_reports_saved_path_witness :
  value (run_seq Scenario.snap
           (Coordinator._click_handler Scenario.good_click
              (Coordinator.ButtonEvent Coordinator.DOWN Coordinator.LEFT 0)))
  = Ok (Coordinator.Completed
          ["C:\Users\user"; "Pictures"; "Screenshots";
           "screenshot_20240101_120000.png"]).
Proof.
  apply (accepted_click_reports_saved_path Scenario.good_click 0 Scenario.snap);
    reflexivity.
Defined.

(** X11. When the file has been written and [pyperclip.copy] raises, the
    handler ends with that exception: the file stays written, and the
    confirmation is not printed. *)
Theorem copy_failure_after_save (e : Coordinator.ClickEnv) (t : Q)
        (st : store) (ex : exn) :
  let p := Clipboard.SAVE_DIR (Clipboard.Path_home (Coordinator.sink e))
             ++ [Calls.screenshot_name (Clipboard.strftime (Coordinator.sink e))] in
  let text := Clipboard.path_str (Clipboard.os_sep (Coordinator.sink e)) p in
  let r := run_seq st
             (Coordinator._click_handler e
                (Coordinator.ButtonEvent Coordinator.DOWN Coordinator.LEFT t)) in
  Coordinator.in_scope e = Ok true ->
  Coordinator.suppressed (Coordinator.time_time e) (last_snip_ts st) = false ->
  Clipboard._seq (Coordinator.clip e) = last_snip_seq st ->
  Clipboard._dib_available (Coordinator.clip e) = true ->
  Clipboard.Image_open (Coordinator.sink e) (last_snip_bytes st) = Ok tt ->
  Clipboard.Image_save (Coordinator.sink e) (last_snip_bytes st) text = Ok tt ->
  Coordinator.pyperclip_copy e text = Raise ex ->
  value r = Raise ex /\
  events (actions r)
  = [EvSeq (last_snip_seq st); EvDibAvailable true;
     EvImageOpen (last_snip_bytes st); EvImageSave text; EvCopy text].
Proof.
  cbv zeta. intros Hs Hsup Hseq Hav Hopen Hsave Hcopy.
  rewrite handler_left_down, Hs, run_gated. cbv zeta.
  rewrite Hsup, Hseq, Z.eqb_refl, Hav. cbn [negb].
  rewrite run_save_and_report_cases. cbv zeta.
  rewrite Hopen, Hsave, Hcopy. split; reflexivity.
Qed.

Lemma copy_failure_after_save_witness :
  value (run_seq Scenario.snap
           (Coordinator._click_handler Cases.copy_refused
              (Coordinator.ButtonEvent Coordinator.DOWN Coordinator.LEFT 0)))
  = Raise PyperclipException.
Proof.
  apply (copy_failure_after_save Cases.copy_refused 0 Scenario.snap
           (ex := PyperclipException)); reflexivity.
Defined.

(** X12. The path [_save_image] returns depends on the home directory
    and the second-resolution time stamp only, not on the payload: two
    saves within the same second are written to the same file. *)
Theorem same_second_same_file (s1 s2 : Clipboard.SinkEnv) (d1 d2 : bytes)
        (st1 st2 : store) (p1 p2 : Clipboard.path) :
  Clipboard.Path_home s1 = Clipboard.Path_home s2 ->
  Clipboard.strftime s1 = Clipboard.strftime s2 ->
  value (run_seq st1 (Clipboard._save_image s1 d1)) = Ok p1 ->
  value (run_seq st2 (Clipboard._save_image s2 d2)) = Ok p2 ->
  p1 = p2 /\
  p1 = Clipboard.SAVE_DIR (Clipboard.Path_home s1)
         ++ [Calls.screenshot_name (Clipboard.strftime s1)].
Proof.
  intros Hh Hs. unfold Clipboard._save_image. simpl.
  destruct (Clipboard.Image_open s1 d1); simpl; [|discriminate].
  destruct (Clipboard.Image_save s1 d1 _); simpl; [|discriminate].
  destruct (Clipboard.Image_open s2 d2); simpl; [|discriminate].
  destruct (Clipboard.Image_save s2 d2 _); simpl; [|discriminate].
  intros [= <-] [= <-]. rewrite Hh, Hs. split; reflexivity.
Qed.

Lemma same_second_same_file_witness :
  ["C:\Users\user"; "Pictures"; "Screenshots";
   "screenshot_20240101_120000.png"]
  = Clipboard.SAVE_DIR (Clipboard.Path_home Scenario.disk)
      ++ [Calls.screenshot_name (Clipboard.strftime Scenario.disk)].
Proof.
  apply (same_second_same_file Scenario.disk Scenario.disk
           Scenario.old_dib Scenario.new_dib Scenario.snap Scenario.snap
           (p1 := ["C:\Users\user"; "Pictures"; "Screenshots";
                   "screenshot_20240101_120000.png"])
           (p2 := ["C:\Users\user"; "Pictures"; "Screenshots";
                   "screenshot_20240101_120000.png"]));
    reflexivity.
Defined.

(** X13. Before the watcher has published anything the globals are
    0.0, 0 and [b""].  A click in scope that the suppression check lets
    through (the product (now - 0.0) * 1000 of line 154 is not <= 200)
    is then turned away as stale whenever the clipboard's sequence
    number is not 0; when it is 0 and CF_DIB is available nothing stops
    the handler, and it calls [_save_image] on the empty payload. *)
Theorem click_before_first_snapshot (e : Coordinator.ClickEnv) (t : Q) :
  let r := run_seq initial_store
             (Coordinator._click_handler e
                (Coordinator.ButtonEvent Coordinator.DOWN Coordinator.LEFT t)) in
  Coordinator.in_scope e = Ok true ->
  PrimFloat.leb
    (PrimFloat.mul (PrimFloat.sub (Coordinator.time_time e) 0%float)
                   1000%float)
    200%float = false ->
  (Clipboard._seq (Coordinator.clip e) <> 0 ->
   value r = Ok Coordinator.Stale /\
   Coordinator.save_calls (actions r) = []) /\
  (Clipboard._seq (Coordinator.clip e) = 0 ->
   Clipboard._dib_available (Coordinator.clip e) = true ->
   Coordinator.save_calls (actions r) = [[]]).
Proof.
  cbv zeta. intros Hs Hlate.
  assert (Hsup : Coordinator.suppressed (Coordinator.time_time e)
                   (last_snip_ts initial_store) = false).
  { rewrite suppressed_unfold. exact Hlate. }
  rewrite handler_left_down, Hs, run_gated. cbv zeta. rewrite Hsup.
  destruct (run_save_and_report e (last_snip_bytes initial_store)
              initial_store) as (_ & Hsave & _).
  split.
  - intros Hne. apply Z.eqb_neq in Hne. simpl last_snip_seq.
    rewrite Hne. simpl. auto.
  - intros Hz Hav. simpl last_snip_seq. rewrite Hz, Hav. cbn [Z.eqb negb].
    unfold actions at 1. cbn [fst snd].
    rewrite save_calls_app, Hsave. reflexivity.
Qed.

Lemma click_before_first_snapshot_witness :
  value (run_seq initial_store
           (Coordinator._click_handler Cases.early_click
              (Coordinator.ButtonEvent Coordinator.DOWN Coordinator.LEFT 0)))
  = Ok Coordinator.Stale.
Proof.
  apply (click_before_first_snapshot Cases.early_click 0).
  - reflexivity.
  - reflexivity.
  - discriminate.
Defined.

(** ** Clipboard helpers and watcher *)

(** X14. [_read_dib] closes the clipboard exactly when opening it and
    reading the data both succeeded: when [GetClipboardData] raises
    after a successful [OpenClipboard], [CloseClipboard] is not called
    and the clipboard stays open.  Its value is the data only when all
    three calls succeeded. *)
Theorem read_dib_closes_only_after_read (c : Clipboard.ClipEnv) :
  snd (Calls._read_dib_calls c) = Clipboard._read_dib c /\
  existsb Calls.is_close (fst (Calls._read_dib_calls c))
  = Calls.is_ok (Clipboard.OpenClipboard c)
    && Calls.is_ok (Clipboard.GetClipboardData c) /\
  Calls.is_ok (Clipboard.OpenClipboard c)
    && Calls.is_ok (Clipboard.GetClipboardData c)
    && Calls.is_ok (Clipboard.CloseClipboard c)
  = match Clipboard._read_dib c with Some _ => true | None => false end.
Proof.
  unfold Calls._read_dib_calls, Clipboard._read_dib.
  destruct (Clipboard.OpenClipboard c); simpl; auto.
  destruct (Clipboard.GetClipboardData c); simpl; auto.
  destruct (Clipboard.CloseClipboard c); simpl; auto.
Qed.

Lemma run_seq_bind {A B} (p : prog A) (f : A -> prog B) (st : store) :
  run_seq st (bind p f)
  = let '(st1, l1, a) := run_seq st p in
    let '(st2, l2, b) := run_seq st1 (f a) in
    (st2, l1 ++ l2, b).
Proof.
  revert st.
  induction p as [a|k IH|k IH|k IH|v k IH|v k IH|v k IH|e k IH];
    intro st; simpl.
  - destruct (run_seq st (f a)) as [[st2 l2] b]. reflexivity.
  - rewrite IH. destruct (run_seq st (k _)) as [[st1 l1] a].
    destruct (run_seq st1 (f a)) as [[st2 l2] b]. reflexivity.
  - rewrite IH. destruct (run_seq st (k _)) as [[st1 l1] a].
    destruct (run_seq st1 (f a)) as [[st2 l2] b]. reflexivity.
  - rewrite IH. destruct (run_seq st (k _)) as [[st1 l1] a].
    destruct (run_seq st1 (f a)) as [[st2 l2] b]. reflexivity.
  - rewrite IH. destruct (run_seq _ k) as [[st1 l1] a].
    destruct (run_seq st1 (f a)) as [[st2 l2] b]. reflexivity.
  - rewrite IH. destruct (run_seq _ k) as [[st1 l1] a].
    destruct (run_seq st1 (f a)) as [[st2 l2] b]. reflexivity.
  - rewrite IH. destruct (run_seq _ k) as [[st1 l1] a].
    destruct (run_seq st1 (f a)) as [[st2 l2] b]. reflexivity.
  - rewrite IH. destruct (run_seq st k) as [[st1 l1] a].
    destruct (run_seq st1 (f a)) as [[st2 l2] b]. reflexivity.
Qed.

(** X15. A pass that sees a new token while CF_DIB is available and
    [_read_dib] returns non-empty data leaves the store holding exactly
    that data, that token and the time of the pass, whatever the store
    held before; it assigns payload, token, timestamp in this order,
    then sleeps 50 ms. *)
Theorem poller_publishes (e : Poller.PollEnv) (prev : Z) (st : store)
        (dib : bytes) :
  Clipboard._seq (Poller.clip e) <> prev ->
  Clipboard._dib_available (Poller.clip e) = true ->
  Clipboard._read_dib (Poller.clip e) = Some dib ->
  dib <> [] ->
  let s := Clipboard._seq (Poller.clip e) in
  run_seq st (Poller.iteration e prev)
  = (mkStore (Poller.time_time e) s dib,
     [Ext (EvSeq s); Ext (EvAssignSeqPrev s); Ext (EvDibAvailable true);
      Ext (EvReadDib (Some dib));
      Mem (WrBytes dib); Mem (WrSeq s); Mem (WrTs (Poller.time_time e));
      Ext (EvSleep 50)],
     s).
Proof.
  intros Hne Hav Hread Hdib. cbv zeta. unfold Poller.iteration.
  apply Z.eqb_neq in Hne. rewrite Hne, Hav, Hread. simpl.
  destruct dib as [|c d]; [contradiction|]. reflexivity.
Qed.

Lemma poller_publishes_witness :
  final_store (run_seq Scenario.snap (Poller.iteration Scenario.new_snip 41))
  = mkStore 1002%float 42 Scenario.new_dib.
Proof.
  rewrite (poller_publishes Scenario.new_snip (prev := 41) Scenario.snap
             (dib := Scenario.new_dib)).
  - reflexivity.
  - discriminate.
  - reflexivity.
  - reflexivity.
  - discriminate.
Defined.

Lemma iteration_value (e : Poller.PollEnv) (prev : Z) (st : store) :
  value (run_seq st (Poller.iteration e prev)) = Clipboard._seq (Poller.clip e).
Proof.
  unfold Poller.iteration.
  destruct (Clipboard._seq (Poller.clip e) =? prev)%Z eqn:Heq; simpl.
  - apply Z.eqb_eq in Heq. symmetry. exact Heq.
  - destruct (Clipboard._dib_available (Poller.clip e)); simpl;
      [|reflexivity].
    destruct (Clipboard._read_dib (Poller.clip e)) as [[|c d]|]; reflexivity.
Qed.

Lemma iteration_store (e : Poller.PollEnv) (prev : Z) (st : store) :
  final_store (run_seq st (Poller.iteration e prev)) = st \/
  Calls.published_by e (final_store (run_seq st (Poller.iteration e prev))).
Proof.
  unfold Poller.iteration, Calls.published_by.
  destruct (negb (Clipboard._seq (Poller.clip e) =? prev)%Z); simpl; auto.
  destruct (Clipboard._dib_available (Poller.clip e)) eqn:Hav; simpl; auto.
  destruct (Clipboard._read_dib (Poller.clip e)) as [[|c d]|] eqn:Hr; simpl;
    auto.
  right. split; [reflexivity|]. exists (c :: d).
  repeat split. discriminate.
Qed.

Lemma run_loop_cons (e : Poller.PollEnv) (envs : list Poller.PollEnv)
      (prev : Z) (st : store) :
  run_seq st (Poller.loop (e :: envs) prev)
  = let r1 := run_seq st (Poller.iteration e prev) in
    let r2 := run_seq (final_store r1)
                (Poller.loop envs (Clipboard._seq (Poller.clip e))) in
    (final_store r2, actions r1 ++ actions r2, value r2).
Proof.
  cbn [Poller.loop]. rewrite run_seq_bind. cbv zeta.
  pose proof (iteration_value e prev st) as Hv.
  destruct (run_seq st (Poller.iteration e prev)) as [[st1 l1] a].
  unfold value in Hv. simpl in Hv. subst a.
  unfold final_store, actions, value. cbn [fst snd].
  destruct (run_seq st1 _) as [[st2 l2] b]. reflexivity.
Qed.

Lemma last_cons_default {A} (x d : A) (l : list A) :
  last (x :: l) d = last l x.
Proof.
  revert x d. induction l as [|y l IH]; intros x d; [reflexivity|].
  change (last (x :: y :: l) d) with (last (y :: l) d).
  rewrite IH. symmetry. apply IH.
Qed.

(** X16. However many passes the watcher makes and whatever they read,
    the token it remembers at the end is the one the last pass saw. *)
Theorem loop_remembers_last_token (envs : list Poller.PollEnv) (prev : Z)
        (st : store) :
  value (run_seq st (Poller.loop envs prev))
  = last (map (fun e => Clipboard._seq (Poller.clip e)) envs) prev.
Proof.
  revert prev st. induction envs as [|e envs IH]; intros prev st.
  - reflexivity.
  - rewrite run_loop_cons. cbv zeta. unfold value at 1. cbn [snd].
    rewrite IH. cbn [map]. symmetry. apply last_cons_default.
Qed.

(** X17. Run without a concurrent writer, the watcher keeps the three
    globals together: after any number of passes the store is either
    the one it started from or the complete snapshot of one single pass,
    non-empty payload, token and timestamp all taken in that pass. *)
Theorem loop_store_is_one_snapshot (envs : list Poller.PollEnv) (prev : Z)
        (st : store) :
  final_store (run_seq st (Poller.loop envs prev)) = st \/
  exists e, In e envs /\
    Calls.published_by e (final_store (run_seq st (Poller.loop envs prev))).
Proof.
  revert prev st. induction envs as [|e envs IH]; intros prev st.
  - left. reflexivity.
  - rewrite run_loop_cons. cbv zeta.
    set (st1 := final_store (run_seq st (Poller.iteration e prev))).
    set (r2 := run_seq st1 (Poller.loop envs (Clipboard._seq (Poller.clip e)))).
    change (final_store (final_store r2,
                         actions (run_seq st (Poller.iteration e prev))
                           ++ actions r2,
                         value r2))
      with (final_store r2).
    destruct (IH (Clipboard._seq (Poller.clip e)) st1)
      as [Hsame|(e' & Hin & Hpub)]; fold r2 in Hsame || fold r2 in Hpub.
    + rewrite Hsame. unfold st1.
      destruct (iteration_store e prev st) as [H|H]; [left; exact H|].
      right. exists e. split; [left; reflexivity|exact H].
    + right. exists e'. split; [right; exact Hin|exact Hpub].
Qed.

(** X18. What is on the clipboard when [_clip_monitor] starts is never
    captured by itself: as long as the sequence number stays the one
    read before the loop, the watcher only looks and sleeps, and the
    globals stay as they are. *)
Theorem clip_monitor_ignores_initial_content (e0 : Poller.PollEnv)
        (envs : list Poller.PollEnv) (st : store) :
  Forall (fun e => Clipboard._seq (Poller.clip e)
                   = Clipboard._seq (Poller.clip e0)) envs ->
  run_seq st (Poller._clip_monitor e0 envs)
  = (st,
     Ext (EvSeq (Clipboard._seq (Poller.clip e0)))
       :: flat_map (fun _ => [Ext (EvSeq (Clipboard._seq (Poller.clip e0)));
                              Ext (EvSleep 50)]) envs,
     Clipboard._seq (Poller.clip e0)).
Proof.
  intro Hall. unfold Poller._clip_monitor. simpl.
  rewrite (loop_same_token st Hall). reflexivity.
Qed.

Lemma clip_monitor_ignores_initial_content_witness :
  final_store
    (run_seq initial_store
       (Poller._clip_monitor Scenario.new_snip
          [Scenario.new_snip; Scenario.new_snip]))
  = initial_store.
Proof.
  rewrite (clip_monitor_ignores_initial_content Scenario.new_snip
             (envs := [Scenario.new_snip; Scenario.new_snip]) initial_store).
  - reflexivity.
  - repeat constructor.
Defined.

(** ** Watcher and hook on the same store *)

Lemma inv_reachable (sched : list tid) (st : store) (pe : Poller.PollEnv)
      (prev : Z) (e : Coordinator.ClickEnv) (ev : Coordinator.mouse_event) :
  Publication.inv st (final_store (run_seq st (Poller.iteration pe prev)))
    (interleave sched
       (start st (Poller.iteration pe prev) (Coordinator._click_handler e ev))).
Proof.
  apply inv_interleave.
  destruct (iteration_wphase pe prev st) as (i & Hi & Hw & Hm).
  exists i, 0%nat. repeat split; auto. apply handler_rphase.
Qed.

Lemma mem_at_same (s : store) (j : nat) : Publication.mem_at s s j = s.
Proof.
  destruct s as [t q b]. destruct j as [|[|[|j]]]; reflexivity.
Qed.

(** X19. The hook cannot disturb a publication: under every
    interleaving the store is the old snapshot with the first few of the
    watcher's three assignments applied, and once the watcher's pass has
    returned the store is exactly what the pass leaves when run alone. *)
Theorem watcher_result_unaffected (sched : list tid) (st : store)
        (pe : Poller.PollEnv) (prev : Z)
        (e : Coordinator.ClickEnv) (ev : Coordinator.mouse_event) (v : Z) :
  let new := final_store (run_seq st (Poller.iteration pe prev)) in
  let c := interleave sched
             (start st (Poller.iteration pe prev)
                (Coordinator._click_handler e ev)) in
  poller c = Ret v ->
  mem c = new /\
  forall sched',
    mem (interleave sched'
           (start st (Poller.iteration pe prev)
              (Coordinator._click_handler e ev)))
    = st \/
    mem (interleave sched'
           (start st (Poller.iteration pe prev)
              (Coordinator._click_handler e ev)))
    = mkStore (last_snip_ts st) (last_snip_seq st) (last_snip_bytes new) \/
    mem (interleave sched'
           (start st (Poller.iteration pe prev)
              (Coordinator._click_handler e ev)))
    = mkStore (last_snip_ts st) (last_snip_seq new) (last_snip_bytes new) \/
    mem (interleave sched'
           (start st (Poller.iteration pe prev)
              (Coordinator._click_handler e ev)))
    = new.
Proof.
  cbv zeta. intro Hret. split.
  - destruct (inv_reachable sched st pe prev e ev)
      as (i & n & Hi & Hw & Hm & _).
    rewrite Hret in Hw. inversion Hw; subst.
    rewrite Hm. destruct (final_store _) as [t q b]. reflexivity.
  - intro sched'.
    destruct (inv_reachable sched' st pe prev e ev)
      as (i & n & Hi & _ & Hm & _).
    rewrite Hm. destruct st as [t0 q0 b0].
    destruct (final_store _) as [t1 q1 b1].
    destruct i as [|[|[|[|i]]]]; try lia; cbn; auto.
Qed.

Lemma watcher_result_unaffected_witness :
  mem Scenario.torn_run
  = final_store (run_seq Scenario.snap (Poller.iteration Scenario.new_snip 41)).
Proof.
  apply (watcher_result_unaffected Scenario.torn_schedule Scenario.snap
           Scenario.new_snip 41 Scenario.good_click Scenario.left_down
           (v := 42)).
  reflexivity.
Defined.

Lemma interleave_app {A B} (s1 s2 : list tid) (c : config A B) :
  interleave (s1 ++ s2) c = interleave s2 (interleave s1 c).
Proof.
  revert c. induction s1 as [|t s1 IH]; intro c; simpl; auto.
Qed.

(** Eight turns are enough for a pass of the watcher to return. *)
Lemma watcher_alone {B} (st : store) (pe : Poller.PollEnv) (prev : Z)
      (h : prog B) :
  let c := interleave (repeat Poller 8) (start st (Poller.iteration pe prev) h) in
  (exists v, poller c = Ret v) /\
  mem c = final_store (run_seq st (Poller.iteration pe prev)) /\
  handler c = h /\
  Publication.handler_reads c = [].
Proof.
  unfold Poller.iteration, Publication.handler_reads, start.
  destruct (negb (Clipboard._seq (Poller.clip pe) =? prev)%Z); simpl.
  - destruct (Clipboard._dib_available (Poller.clip pe)); simpl.
    + destruct (Clipboard._read_dib (Poller.clip pe)) as [[|c d]|]; simpl;
        eauto.
    + eauto.
  - eauto.
Qed.

Lemma inv_reads_same (s : store) {A B} (c : config A B) (obs : store) :
  Publication.inv s s c ->
  Publication.observed_triple (Publication.handler_reads c) = Some obs ->
  obs = s.
Proof.
  intros (i & n & _ & _ & _ & _ & Hl) Hobs.
  destruct n as [|[|[|[|n]]]]; cbn [Publication.reads_ok] in Hl.
  - rewrite Hl in Hobs. discriminate.
  - destruct Hl as (j1 & _ & Hl). rewrite Hl in Hobs. discriminate.
  - destruct Hl as (j1 & j2 & _ & Hl). rewrite Hl in Hobs. discriminate.
  - destruct Hl as (j1 & j2 & j3 & _ & _ & Hl). rewrite Hl in Hobs.
    rewrite !mem_at_same in Hobs. simpl in Hobs. injection Hobs as <-.
    destruct s. reflexivity.
  - contradiction.
Qed.

(** X20. When the watcher's pass has run to its end before the hook
    takes its first step, the hook reads the new snapshot whole, however
    the rest of the schedule goes. *)
Theorem watcher_first_reads_new (n : nat) (sched : list tid) (st : store)
        (pe : Poller.PollEnv) (prev : Z)
        (e : Coordinator.ClickEnv) (ev : Coordinator.mouse_event)
        (obs : store) :
  (8 <= n)%nat ->
  Publication.observed_triple
    (Publication.handler_reads
       (interleave (repeat Poller n ++ sched)
          (start st (Poller.iteration pe prev)
             (Coordinator._click_handler e ev))))
  = Some obs ->
  obs = final_store (run_seq st (Poller.iteration pe prev)).
Proof.
  intros Hn.
  replace n with (8 + (n - 8))%nat by lia.
  rewrite repeat_app, <- app_assoc, interleave_app.
  destruct (watcher_alone st pe prev (Coordinator._click_handler e ev))
    as ([v Hp] & Hm & Hh & Hr).
  set (c := interleave (repeat Poller 8) _) in *.
  set (new := final_store _) in *. clearbody new.
  apply inv_reads_same. apply inv_interleave.
  exists 3%nat, 0%nat. repeat split.
  - lia.
  - rewrite Hp. constructor.
  - rewrite Hm, mem_at_same. reflexivity.
  - rewrite Hh. apply handler_rphase.
  - exact Hr.
Qed.

Lemma watcher_first_reads_new_witness :
  mkStore 1002%float 42 Scenario.new_dib
  = final_store (run_seq Scenario.snap (Poller.iteration Scenario.new_snip 41)).
Proof.
  apply (watcher_first_reads_new (n := 8)
           (repeat Handler 9) Scenario.snap Scenario.new_snip 41
           Cases.late_click Scenario.left_down).
  - apply le_n.
  - reflexivity.
Defined.

(** A turn of the hook changes neither the store nor the other thread,
    and what it loads it loads from the store as it is. *)
Lemma hook_turn {A B} (st : store) (c : config A B) :
  mem c = st ->
  (exists k, Publication.rphase k (handler c) /\
             Publication.reads_ok st st k 0 (Publication.handler_reads c)) ->
  mem (sched_step Handler c) = st /\
  (exists k, Publication.rphase k (handler (sched_step Handler c)) /\
             Publication.reads_ok st st k 0
               (Publication.handler_reads (sched_step Handler c))).
Proof.
  intros Hm (k & Hr & Hl). destruct c as [m p h l].
  unfold Publication.handler_reads in *. simpl in *. subst m.
  inversion Hr; subst; simpl.
  - split; [reflexivity|]. exists k. auto.
  - split; [reflexivity|]. exists k. split; [assumption|].
    rewrite handler_reads_handler_step. simpl. rewrite app_nil_r. exact Hl.
  - split; [reflexivity|]. exists 1%nat. split; [auto|].
    rewrite handler_reads_handler_step. simpl in Hl. rewrite Hl.
    exists 0%nat. rewrite mem_at_same. auto.
  - split; [reflexivity|]. exists 2%nat. split; [auto|].
    rewrite handler_reads_handler_step.
    destruct Hl as (j1 & Hj & ->).
    exists j1, 0%nat. rewrite (mem_at_same st 0). split; [lia|reflexivity].
  - split; [reflexivity|]. exists 3%nat. split; [auto|].
    rewrite handler_reads_handler_step.
    destruct Hl as (j1 & j2 & Hj & ->).
    exists j1, j2, 0%nat. rewrite (mem_at_same st 0).
    repeat split; try lia.
Qed.

Lemma hook_turns {A B} (st : store) (n : nat) (c : config A B) :
  mem c = st ->
  (exists k, Publication.rphase k (handler c) /\
             Publication.reads_ok st st k 0 (Publication.handler_reads c)) ->
  exists k,
    Publication.reads_ok st st k 0
      (Publication.handler_reads (interleave (repeat Handler n) c)).
Proof.
  revert c. induction n as [|n IH]; intros c Hm Hk.
  - destruct Hk as (k & _ & Hl). exists k. exact Hl.
  - simpl. destruct (hook_turn c Hm Hk) as (Hm' & Hk').
    apply IH; assumption.
Qed.

Lemma reads_frozen {A B} (sched : list tid) (c : config A B) (v : B) :
  handler c = Ret v ->
  Publication.handler_reads (interleave sched c) = Publication.handler_reads c.
Proof.
  revert c. induction sched as [|t sched IH]; intros c Hc; [reflexivity|].
  destruct c as [m p h l]. simpl in Hc. subst h.
  simpl. destruct t; simpl.
  - destruct (step m p) as [[[m' p'] a]|]; [|apply IH; reflexivity].
    rewrite IH by reflexivity.
    unfold Publication.handler_reads. simpl.
    apply handler_reads_poller_step.
  - apply IH. reflexivity.
Qed.

(** X21. When the hook has run to its return before the other thread
    takes a step, the triple it has read is the store as it was then,
    whatever the other thread goes on to assign. *)
Theorem hook_first_reads_old {A} (n : nat) (sched : list tid) (st : store)
        (w : prog A) (e : Coordinator.ClickEnv)
        (ev : Coordinator.mouse_event)
        (v : result Coordinator.exit_point) (obs : store) :
  handler (interleave (repeat Handler n)
             (start st w (Coordinator._click_handler e ev))) = Ret v ->
  Publication.observed_triple
    (Publication.handler_reads
       (interleave (repeat Handler n ++ sched)
          (start st w (Coordinator._click_handler e ev))))
  = Some obs ->
  obs = st.
Proof.
  intros Hret. rewrite interleave_app, (reads_frozen _ _ Hret).
  destruct (hook_turns n
              (start st w (Coordinator._click_handler e ev)) eq_refl)
    as (k & Hl).
  { exists 0%nat. split; [apply handler_rphase|reflexivity]. }
  intros Hobs.
  destruct k as [|[|[|[|k]]]]; cbn [Publication.reads_ok] in Hl.
  - rewrite Hl in Hobs. discriminate.
  - destruct Hl as (j1 & _ & Hl). rewrite Hl in Hobs. discriminate.
  - destruct Hl as (j1 & j2 & _ & Hl). rewrite Hl in Hobs. discriminate.
  - destruct Hl as (j1 & j2 & j3 & _ & _ & Hl). rewrite Hl in Hobs.
    rewrite !mem_at_same in Hobs. simpl in Hobs. injection Hobs as <-.
    destruct st. reflexivity.
  - contradiction.
Qed.

Lemma hook_first_reads_old_witness :
  mkStore 1000%float 41 Scenario.old_dib = Scenario.snap.
Proof.
  apply (hook_first_reads_old 9 (repeat Poller 8) Scenario.snap
           (Poller.iteration Scenario.new_snip 41)
           Scenario.good_click Scenario.left_down
           (v := Ok (Coordinator.Completed
                       ["C:\Users\user"; "Pictures"; "Screenshots";
                        "screenshot_20240101_120000.png"]))).
  - vm_compute. reflexivity.
  - vm_compute. reflexivity.
Defined.

Lemma window_query_raises (w : Classifier.WinEnv) (hwnd : Z) (ex : exn) :
  match Classifier.GetWindowThreadProcessId w hwnd with
  | Ok (_, pid) => Classifier._pid_is_vscode w pid
  | Raise e => Raise e
  end = Raise ex ->
  Classifier.GetWindowThreadProcessId w hwnd = Raise ex \/
  exists tid pid,
    Classifier.GetWindowThreadProcessId w hwnd = Ok (tid, pid) /\
    Classifier.Process_name w pid = Raise ex /\
    is_psutil_Error ex = false.
Proof.
  destruct (Classifier.GetWindowThreadProcessId w hwnd) as [[tid pid]|e].
  - intro H. right. exists tid, pid. split; [reflexivity|].
    unfold Classifier._pid_is_vscode in H.
    destruct (Classifier.Process_name w pid) as [name|e]; [discriminate|].
    destruct (is_psutil_Error e) eqn:He; [discriminate|].
    injection H as <-. auto.
  - intros [= <-]. left. reflexivity.
Qed.

(** X22. The scope check of the handler raises in two situations only:
    the owner of a window that was found (a handle other than 0) cannot
    be resolved, or the name of the owning process cannot be read for a
    reason that is not a [psutil.Error]; the exception is the
    collaborator's own. *)
Theorem scope_check_raises (e : Coordinator.ClickEnv) (ex : exn) :
  Coordinator.in_scope e = Raise ex ->
  exists hwnd, hwnd <> 0 /\
    (Classifier.GetWindowThreadProcessId (Coordinator.win e) hwnd = Raise ex \/
     exists tid pid,
       Classifier.GetWindowThreadProcessId (Coordinator.win e) hwnd
       = Ok (tid, pid) /\
       Classifier.Process_name (Coordinator.win e) pid = Raise ex /\
       is_psutil_Error ex = false).
Proof.
  unfold Coordinator.in_scope.
  destruct (Coordinator.get_position e) as [x y].
  unfold Coordinator.py_or, Classifier._foreground_is_vscode,
    Classifier._window_at_point_is_vscode.
  destruct (Classifier.GetForegroundWindow (Coordinator.win e) =? 0)%Z eqn:Hf.
  - destruct (Classifier.WindowFromPoint (Coordinator.win e) (x, y) =? 0)%Z
      eqn:Hp; [discriminate|].
    intro H. apply window_query_raises in H. apply Z.eqb_neq in Hp. eauto.
  - apply Z.eqb_neq in Hf.
    destruct (match Classifier.GetWindowThreadProcessId (Coordinator.win e)
                      (Classifier.GetForegroundWindow (Coordinator.win e)) with
              | Ok (_, pid) => Classifier._pid_is_vscode (Coordinator.win e) pid
              | Raise e0 => Raise e0
              end) as [[|]|e0] eqn:Hfg.
    + discriminate.
    + destruct (Classifier.WindowFromPoint (Coordinator.win e) (x, y) =? 0)%Z
        eqn:Hp; [discriminate|].
      intro H. apply window_query_raises in H. apply Z.eqb_neq in Hp. eauto.
    + intros [= <-]. apply window_query_raises in Hfg. eauto.
Qed.

Lemma scope_check_raises_witness :
  exists hwnd, hwnd <> 0 /\
    (Classifier.GetWindowThreadProcessId
       (Coordinator.win Cases.foreground_gone) hwnd
     = Raise (pywintypes_error 1400) \/
     exists tid pid,
       Classifier.GetWindowThreadProcessId
         (Coordinator.win Cases.foreground_gone) hwnd = Ok (tid, pid) /\
       Classifier.Process_name (Coordinator.win Cases.foreground_gone) pid
       = Raise (pywintypes_error 1400) /\
       is_psutil_Error (pywintypes_error 1400) = false).
Proof.
  apply (scope_check_raises Cases.foreground_gone). reflexivity.
Defined.
